(** * Jira Server OAuth1 client (sentry/integrations/jira_server/client.py)

    A shallow embedding of the two client classes of the module,
    [JiraServerSetupClient] and [JiraServerClient], together with the few
    pieces of Python they lean on (string formatting, [str.replace],
    [re.search], dictionaries), and the properties of the specification
    that concern them.

    Python byte strings are Rocq [string]s, dictionaries with string keys
    are [gmap string _], exceptions are values of [Exn], and the methods
    run in a state-and-exception monad over a [World] that holds the
    process-wide cache, the installation's identity and the log of what
    the client handed to the HTTP layer. *)

From Stdlib Require Import String Ascii List Bool Arith Lia.
From stdpp Require Import base option gmap strings list.

Local Open Scope string_scope.
Local Open Scope list_scope.

(** ** Python strings *)

Module PyStr.

(** The characters that cannot be written inside a Rocq string literal
    without escaping, by their decimal code. *)
Definition DQUOTE : ascii := "034"%char.
Definition NEWLINE : ascii := "010"%char.
Definition BACKSLASH : ascii := "092"%char.

Definition dquote : string := String DQUOTE "".
Definition newline : string := String NEWLINE "".

(** [s.replace(old, new)] for a pattern [old] of one character: every
    occurrence is replaced, left to right. *)
Fixpoint replace (old : ascii) (new : string) (s : string) : string :=
  match s with
  | "" => ""
  | String c rest =>
      if Ascii.eqb c old then new +:+ replace old new rest
      else String c (replace old new rest)
  end.

(** [tpl % arg] for a template with one [%s] conversion and a string
    argument: the argument takes the place of the conversion. *)
Fixpoint percent_format (tpl : string) (arg : string) : string :=
  match tpl with
  | "" => ""
  | String c rest =>
      if Ascii.eqb c "%" then
        match rest with
        | String "s" rest' => arg +:+ rest'
        | _ => String c (percent_format rest arg)
        end
      else String c (percent_format rest arg)
  end.

(** [tpl.format(a, b, ...)] for a template whose replacement fields are all
    the automatic [{}]: each takes the next positional argument, and
    running out of arguments is Python's IndexError ([None]). *)
Fixpoint format (tpl : string) (args : list string) : option string :=
  match tpl with
  | "" => Some ""
  | String c rest =>
      if Ascii.eqb c "{" then
        match rest with
        | String "}" rest' =>
            match args with
            | a :: args' => String.append a <$> format rest' args'
            | [] => None
            end
        | _ => String c <$> format rest args
        end
      else String c <$> format rest args
  end.

(** [sep.join(bits)]. *)
Fixpoint join (sep : string) (bits : list string) : string :=
  match bits with
  | [] => ""
  | [b] => b
  | b :: bs => b +:+ sep +:+ join sep bs
  end.

(** [c in s] for a character. *)
Fixpoint contains (c : ascii) (s : string) : bool :=
  match s with
  | "" => false
  | String d rest => Ascii.eqb d c || contains c rest
  end.

(** The string holds no double quote. *)
Definition unquoted (s : string) : Prop := contains DQUOTE s = false.

End PyStr.

(** ** Regular expressions, as far as [re.search] is used here

    The pattern language covers what the module's one pattern needs:
    the anchors, character sets and the one-or-more quantifier.  The
    matcher backtracks like Python's; without the MULTILINE flag [^]
    matches at the start of the string only, and [$] matches at the end
    of the string and also just before a newline that is its last
    character. *)

Module Re.

Inductive CharSet : Type :=
| Lit (c : ascii)                     (* a literal character *)
| Ranges (rs : list (ascii * ascii))  (* [a-bc-d], inclusive ranges *)
| Digit.                              (* \d on a byte string: 0-9 *)

Inductive Item : Type :=
| Bol                 (* ^ *)
| Eol                 (* $ *)
| One (cs : CharSet)  (* one character of the set *)
| Plus (cs : CharSet) (* set+ *).

Definition in_range (lo hi c : ascii) : bool :=
  Nat.leb (nat_of_ascii lo) (nat_of_ascii c)
  && Nat.leb (nat_of_ascii c) (nat_of_ascii hi).

Definition mem (cs : CharSet) (c : ascii) : bool :=
  match cs with
  | Lit d => Ascii.eqb c d
  | Ranges rs => existsb (fun r => in_range (fst r) (snd r) c) rs
  | Digit => in_range "0" "9" c
  end.

(** Where [$] matches: at the end, or before a final newline. *)
Definition at_eol (s : string) : bool :=
  match s with
  | "" => true
  | String c "" => Ascii.eqb c PyStr.NEWLINE
  | _ => false
  end.

(** [match_here final p bol s]: the items [p] match a prefix of [s] and
    [final] accepts what is left; [bol] says whether [s] starts at the
    beginning of the subject. *)
Fixpoint match_here (final : string -> bool) (p : list Item) (bol : bool) (s : string)
    {struct p} : bool :=
  match p with
  | [] => final s
  | Bol :: rest => bol && match_here final rest bol s
  | Eol :: rest => at_eol s && match_here final rest bol s
  | One cs :: rest =>
      match s with
      | String c s' => mem cs c && match_here final rest false s'
      | "" => false
      end
  | Plus cs :: rest =>
      (fix plus (s : string) : bool :=
         match s with
         | String c s' => mem cs c && (plus s' || match_here final rest false s')
         | "" => false
         end) s
  end.

(** A match may end anywhere in the subject. *)
Definition anywhere (rest : string) : bool := true.

Fixpoint search_from (p : list Item) (bol : bool) (s : string) : bool :=
  match_here anywhere p bol s
  || match s with
     | String _ s' => search_from p false s'
     | "" => false
     end.

(** The truth value of [re.search(p, s)]: a match object or None. *)
Definition search (p : list Item) (s : string) : bool := search_from p true s.

(** A match must use up the subject. *)
Definition at_end (rest : string) : bool := String.eqb "" rest.

(** The truth value of [re.fullmatch(p, s)]: the match starts at the
    beginning and must use up the whole subject. *)
Definition fullmatch (p : list Item) (s : string) : bool :=
  match_here at_end p true s.

End Re.

(** ** Form decoding *)

Module UrlParse.

Fixpoint split (is_sep : ascii -> bool) (s : string) : list string :=
  match s with
  | "" => [""]
  | String c rest =>
      if is_sep c then "" :: split is_sep rest
      else match split is_sep rest with
           | piece :: more => String c piece :: more
           | [] => [String c ""]
           end
  end.

(** [s.split('=', 1)]: the text before the first [=], and the text after
    it when there is one. *)
Fixpoint split_eq (s : string) : string * option string :=
  match s with
  | "" => ("", None)
  | String c rest =>
      if Ascii.eqb c "=" then ("", Some rest)
      else let (n, v) := split_eq rest in (String c n, v)
  end.

Definition hex_val (c : ascii) : option nat :=
  let n := nat_of_ascii c in
  if Re.in_range "0" "9" c then Some (n - 48)
  else if Re.in_range "a" "f" c then Some (n - 87)
  else if Re.in_range "A" "F" c then Some (n - 55)
  else None.

(** [unquote]: a percent sign followed by two hexadecimal digits stands
    for the byte they spell; anything else is kept. *)
Fixpoint unquote (s : string) : string :=
  match s with
  | "" => ""
  | String c rest =>
      if Ascii.eqb c "%" then
        match rest with
        | String h (String l rest') =>
            match hex_val h, hex_val l with
            | Some a, Some b => String (ascii_of_nat (16 * a + b)) (unquote rest')
            | _, _ => String c (unquote rest)
            end
        | _ => String c (unquote rest)
        end
      else String c (unquote rest)
  end.

Definition decode (s : string) : string := unquote (PyStr.replace "+" " " s).

(** Modelled from the spec: the form decoding of the token responses
    ([parse_qsl], imported from [urllib.parse]; its code is not part of
    the module).  The body is cut at [&] and [;]; an empty piece, a
    piece with no [=] and a piece with an empty value are dropped (blank
    values are not kept); a name and a value are decoded with [+] as a
    space and percent escapes. *)
Definition parse_qsl (qs : string) : list (string * string) :=
  flat_map
    (fun name_value =>
       match split_eq name_value with
       | (name, Some value) =>
           if String.eqb value "" then [] else [(decode name, decode value)]
       | (_, None) => []
       end)
    (split (fun c => Ascii.eqb c "&" || Ascii.eqb c ";") qs).

End UrlParse.

(** [dict(pairs)]: a later pair of a key replaces an earlier one. *)
Definition dict (pairs : list (string * string)) : gmap string string :=
  fold_left (fun m kv => <[fst kv := snd kv]> m) pairs ∅.

(** ** Requests, signers and exceptions *)

(** [oauthlib.oauth1.SIGNATURE_RSA]. *)
Definition SIGNATURE_RSA : string := "RSA-SHA1".

(** The arguments an [OAuth1] signer is built from; an argument that is
    not passed keeps the constructor's default, None. *)
Record OAuth1 : Type := mkOAuth1 {
  client_key : string;
  resource_owner_key : option string;
  resource_owner_secret : option string;
  verifier : option string;
  rsa_key : option string;
  signature_method : string;
  signature_type : string
}.

(** The value of an [auth] keyword argument: None or a signer. *)
Inductive Auth : Type :=
| PyNone
| Signer (o : OAuth1).

(** A request body: a dictionary whose values are strings or lists of
    strings. *)
Inductive JsonValue : Type :=
| JStr (s : string)
| JList (items : list string).

Definition Json : Type := list (string * JsonValue).

(** The keyword arguments the methods pass on to the HTTP layer; [None]
    means the keyword is not in [kwargs]. *)
Record Kwargs : Type := mkKwargs {
  kw_auth : option Auth;
  kw_data : option Json;
  kw_params : option (list (string * string));
  kw_allow_text : option bool
}.

Definition no_kwargs : Kwargs :=
  {| kw_auth := None; kw_data := None; kw_params := None; kw_allow_text := None |}.

Definition set_auth (a : Auth) (kw : Kwargs) : Kwargs :=
  {| kw_auth := Some a; kw_data := kw_data kw;
     kw_params := kw_params kw; kw_allow_text := kw_allow_text kw |}.

(** What [_request] receives. *)
Record Request : Type := mkRequest {
  req_method : string;
  req_path : string;
  req_kwargs : Kwargs
}.

(** What the log records: a signer was constructed, or a request was
    handed to the HTTP layer (a network call). *)
Inductive Event : Type :=
| EvOAuth1 (o : OAuth1)
| EvRequest (r : Request).

Definition is_request (e : Event) : bool :=
  match e with EvRequest _ => true | EvOAuth1 _ => false end.

Definition requests (tr : list Event) : list Request :=
  flat_map (fun e => match e with EvRequest r => [r] | EvOAuth1 _ => [] end) tr.

Definition signers (tr : list Event) : list OAuth1 :=
  flat_map (fun e => match e with EvOAuth1 o => [o] | EvRequest _ => [] end) tr.

Inductive Exn : Type :=
| ApiError (msg : string)
| KeyError (key : string)
| IndexError.

Inductive Outcome (A : Type) : Type :=
| Raised (e : Exn)
| Returned (a : A).
Arguments Raised {A} e.
Arguments Returned {A} a.

(** ** The host system

    What the module consumes and does not define: the response objects
    of the generic HTTP client with their truth value and their [text],
    the transport behind [ApiClient._request] (its answer may depend on
    everything logged so far), [hashlib.md5] read through [hexdigest],
    [jwt.encode], the URL reversal and [absolute_uri]. *)
Class HostSystem : Type := {
  Response : Type;
  truthy : Response -> bool;
  text : Response -> string;
  transport : list Event -> Request -> Exn + Response;
  _md5_hexdigest : string -> string;
  jwt_encode : list (string * string) -> string -> string;
  reverse : string -> list (string * string) -> string;
  absolute_uri : string -> string
}.

(** ** The world and the monad of the methods *)

Section Runtime.
Context `{HostSystem}.

(** The process-wide cache (key to value and time to live, in seconds),
    the data of the installation's default identity as the external
    store holds it now, and the log. *)
Record World : Type := mkWorld {
  cache : gmap string (Response * nat);
  identity_data : gmap string string;
  trace : list Event
}.

Definition M (A : Type) : Type := World -> Outcome A * World.

Definition ret {A} (a : A) : M A := fun w => (Returned a, w).
Definition raise {A} (e : Exn) : M A := fun w => (Raised e, w).
Definition bind {A B} (m : M A) (k : A -> M B) : M B :=
  fun w =>
    match m w with
    | (Returned a, w') => k a w'
    | (Raised e, w') => (Raised e, w')
    end.

(** The world with more events in its log. *)
Definition logged (events : list Event) (w : World) : World :=
  {| cache := cache w; identity_data := identity_data w;
     trace := trace w ++ events |}.

Definition log (e : Event) : M unit := fun w => (Returned tt, logged [e] w).

Definition outcome_of {A} (r : Exn + A) : Outcome A :=
  match r with
  | inl e => Raised e
  | inr a => Returned a
  end.

(** [d[key]]. *)
Definition subscript (d : gmap string string) (key : string) : M string :=
  match d !! key with
  | Some v => ret v
  | None => raise (KeyError key)
  end.

(** [tpl.format(...)] inside a method. *)
Definition str_format (tpl : string) (args : list string) : M string :=
  match PyStr.format tpl args with
  | Some s => ret s
  | None => raise IndexError
  end.

(** The call [OAuth1(...)]: the signer, and a note in the log. *)
Definition new_OAuth1 (o : OAuth1) : M OAuth1 :=
  bind (log (EvOAuth1 o)) (fun _ => ret o).

(** Modelled from the spec: the key-value cache store ([sentry.utils.cache],
    not part of the module): [get(key)] gives the stored value or None,
    [set(key, value, ttl_seconds)] stores it. *)
Definition cache_get (key : string) : M (option Response) :=
  fun w => (Returned (fst <$> cache w !! key), w).

(** Modelled from the spec: [set(key, value, ttl_seconds)] of the same
    cache store. *)
Definition cache_set (key : string) (value : Response) (ttl : nat) : M unit :=
  fun w => (Returned tt,
            {| cache := <[key := (value, ttl)]> (cache w);
               identity_data := identity_data w; trace := trace w |}).

(** [self.installation.default_identity.data], read from the store. *)
Definition read_identity_data : M (gmap string string) :=
  fun w => (Returned (identity_data w), w).

(** The external store replacing the identity's data between two calls. *)
Definition rotate_identity (d : gmap string string) (w : World) : World :=
  {| cache := cache w; identity_data := d; trace := trace w |}.

(** Modelled from the spec: [ApiClient._request] (the generic request
    executor, not part of the module) performs the call and raises a
    typed error on failure. *)
Definition _request (method path : string) (kw : Kwargs) : M Response :=
  let req := {| req_method := method; req_path := path; req_kwargs := kw |} in
  fun w => (outcome_of (transport (trace w) req), logged [EvRequest req] w).

End Runtime.

Declare Scope py_scope.
Delimit Scope py_scope with py.
Notation "x <- m ;; k" := (bind m (fun x => k))
  (at level 100, m at next level, right associativity) : py_scope.
Notation "m ;;; k" := (bind m (fun _ => k))
  (at level 100, right associativity) : py_scope.

Local Open Scope py_scope.

(** The truth value of an optional string argument: None and the empty
    string are false. *)
Definition truth (v : option string) : bool :=
  match v with
  | None => false
  | Some s => negb (String.eqb s "")
  end.

(** ** JiraServerSetupClient: the OAuth1 handshake *)

Module JiraServerSetupClient.

Record t : Type := __init__ {
  base_url : string;
  consumer_key : string;
  private_key : string;
  verify_ssl : bool
}.

Definition request_token_url : string := "{}/plugins/servlet/oauth/request-token".
Definition access_token_url : string := "{}/plugins/servlet/oauth/access-token".
Definition authorize_url : string := "{}/plugins/servlet/oauth/authorize?oauth_token={}".

Section Methods.
Context `{HostSystem}.

(** Add OAuth1 RSA signatures. *)
Definition request (self : t) (method path : string) (kwargs : Kwargs) : M Response :=
  match kw_auth kwargs with
  | None =>
      auth <- new_OAuth1 {| client_key := consumer_key self;
                            resource_owner_key := None;
                            resource_owner_secret := None;
                            verifier := None;
                            rsa_key := Some (private_key self);
                            signature_method := SIGNATURE_RSA;
                            signature_type := "auth_header" |} ;;
      _request method path (set_auth (Signer auth) kwargs)
  | Some _ => _request method path kwargs
  end.

(** Modelled from the spec: [ApiClient.post] (not part of the module)
    goes through [self.request] with the method POST. *)
Definition post (self : t) (path : string) (kwargs : Kwargs) : M Response :=
  request self "POST" path kwargs.

(** Step 1 of the oauth flow. *)
Definition get_request_token (self : t) : M (gmap string string) :=
  url <- str_format request_token_url [base_url self] ;;
  resp <- post self url {| kw_auth := None; kw_data := None; kw_params := None;
                           kw_allow_text := Some true |} ;;
  ret (dict (UrlParse.parse_qsl (text resp))).

(** Step 2 of the oauth flow. *)
Definition get_authorize_url (self : t) (request_token : gmap string string) : M string :=
  token <- subscript request_token "oauth_token" ;;
  str_format authorize_url [base_url self; token].

(** Step 3 of the oauth flow. *)
Definition get_access_token (self : t) (request_token : gmap string string)
    (verifier : option string) : M (gmap string string) :=
  if negb (truth verifier) then raise (ApiError "Missing OAuth token verifier")
  else
    token <- subscript request_token "oauth_token" ;;
    secret <- subscript request_token "oauth_token_secret" ;;
    auth <- new_OAuth1 {| client_key := consumer_key self;
                          resource_owner_key := Some token;
                          resource_owner_secret := Some secret;
                          verifier := verifier;
                          rsa_key := Some (private_key self);
                          signature_method := SIGNATURE_RSA;
                          signature_type := "auth_header" |} ;;
    url <- str_format access_token_url [base_url self] ;;
    resp <- post self url {| kw_auth := Some (Signer auth); kw_data := None;
                             kw_params := None; kw_allow_text := Some true |} ;;
    ret (dict (UrlParse.parse_qsl (text resp))).

Definition webhook_data (external_id secret : string) : Json :=
  let token := jwt_encode [("id", external_id)] secret in
  let path := reverse "sentry-extensions-jiraserver-issue-updated" [("token", token)] in
  [("name", JStr "Sentry Issue Sync");
   ("url", JStr (absolute_uri path));
   ("events", JList ["jira:issue_created"; "jira:issue_updated"])].

Definition create_issue_webhook (self : t) (external_id secret : string)
    (credentials : gmap string string) : M Response :=
  ck <- subscript credentials "consumer_key" ;;
  pk <- subscript credentials "private_key" ;;
  tok <- subscript credentials "access_token" ;;
  sec <- subscript credentials "access_token_secret" ;;
  auth <- new_OAuth1 {| client_key := ck;
                        resource_owner_key := Some tok;
                        resource_owner_secret := Some sec;
                        verifier := None;
                        rsa_key := Some pk;
                        signature_method := SIGNATURE_RSA;
                        signature_type := "auth_header" |} ;;
  post self "/rest/webhooks/1.0/webhook"
       {| kw_auth := Some (Signer auth);
          kw_data := Some (webhook_data external_id secret);
          kw_params := None; kw_allow_text := None |}.

End Methods.

End JiraServerSetupClient.

(** ** JiraServerClient: the authenticated client *)

Module JiraServerClient.

(** The client holds its installation, whose identity lives in the
    [World], and the [base_url] read from its metadata on construction. *)
Record t : Type := mk {
  base_url : string;
  verify_ssl : bool
}.

Definition META_URL : string := "/rest/api/2/issue/createmeta".
Definition PRIORITIES_URL : string := "/rest/api/2/priority".
Definition VERSIONS_URL : string := "/rest/api/2/project/%s/versions".
Definition SEARCH_URL : string := "/rest/api/2/search/".
Definition ISSUE_URL : string := "/rest/api/2/issue/%s".

(** The pattern [^[A-Za-z]+-\d+$]. *)
Definition issue_id_pattern : list Re.Item :=
  [Re.Bol; Re.Plus (Re.Ranges [("A", "Z"); ("a", "z")]%char); Re.One (Re.Lit "-");
   Re.Plus Re.Digit; Re.Eol].

(** The query with its double quotes escaped: [query.replace(DQUOTE, BACKSLASH DQUOTE)]. *)
Definition escape (query : string) : string :=
  PyStr.replace PyStr.DQUOTE (String PyStr.BACKSLASH PyStr.dquote) query.

Definition id_template : string := "id=" +:+ PyStr.dquote +:+ "%s" +:+ PyStr.dquote.
Definition text_template : string := "text ~ " +:+ PyStr.dquote +:+ "%s" +:+ PyStr.dquote.

(** The JQL of [search_issues]. *)
Definition jql (query : string) : string :=
  (* check if it looks like an issue id *)
  if Re.search issue_id_pattern query then PyStr.percent_format id_template (escape query)
  else PyStr.percent_format text_template (escape query).

(** The JQL in the words of the specification, to compare [jql] with:
    the exact-match clause exactly when the whole query matches the
    pattern, the free-text clause otherwise. *)
Definition spec_jql (query : string) : string :=
  if Re.fullmatch issue_id_pattern query
  then PyStr.percent_format id_template (escape query)
  else PyStr.percent_format text_template (escape query).

Section Methods.
Context `{HostSystem}.

Definition request (self : t) (method path : string) (kwargs : Kwargs) : M Response :=
  match kw_auth kwargs with
  | None =>
      auth_data <- read_identity_data ;;
      ck <- subscript auth_data "consumer_key" ;;
      pk <- subscript auth_data "private_key" ;;
      tok <- subscript auth_data "access_token" ;;
      sec <- subscript auth_data "access_token_secret" ;;
      auth <- new_OAuth1 {| client_key := ck;
                            resource_owner_key := Some tok;
                            resource_owner_secret := Some sec;
                            verifier := None;
                            rsa_key := Some pk;
                            signature_method := SIGNATURE_RSA;
                            signature_type := "auth_header" |} ;;
      _request method path (set_auth (Signer auth) kwargs)
  | Some _ => _request method path kwargs
  end.

(** Modelled from the spec: [ApiClient.get] (not part of the module)
    goes through [self.request] with the method GET. *)
Definition get (self : t) (path : string) (kwargs : Kwargs) : M Response :=
  request self "GET" path kwargs.

(** The module's [md5(bits)], read through [hexdigest()]. *)
Definition md5 (bits : list string) : string :=
  _md5_hexdigest (PyStr.join ":" bits).

Definition cache_key (self : t) (full_url : string) : string :=
  "sentry-jira-server:" +:+ md5 [full_url; base_url self].

(** Basic caching mechanism for requests and responses. *)
Definition get_cached (self : t) (full_url : string) : M Response :=
  let key := cache_key self full_url in
  let fetch :=
    fetched <- get self full_url no_kwargs ;;
    cache_set key fetched 60 ;;;
    ret fetched in
  cached_result <- cache_get key ;;
  match cached_result with
  | Some value => if truthy value then ret value else fetch
  | None => fetch
  end.

Definition get_valid_statuses (self : t) : M (list string) := ret [].

Definition get_projects_list (self : t) : M (list string) := ret [].

Definition get_create_meta (self : t) (project : option string) : M Response :=
  let params := [("expand", "projects.issuetypes.fields")] in
  let params :=
    match project with
    | Some p => params ++ [("projectIds", p)]
    | None => params
    end in
  get self META_URL {| kw_auth := None; kw_data := None; kw_params := Some params;
                       kw_allow_text := None |}.

Definition get_priorities (self : t) : M Response := get_cached self PRIORITIES_URL.

Definition get_versions (self : t) (project : string) : M Response :=
  get_cached self (PyStr.percent_format VERSIONS_URL project).

Definition search_issues (self : t) (query : string) : M Response :=
  get self SEARCH_URL {| kw_auth := None; kw_data := None;
                         kw_params := Some [("jql", jql query)];
                         kw_allow_text := None |}.

Definition get_issue (self : t) (issue_id : string) : M Response :=
  get self (PyStr.percent_format ISSUE_URL issue_id) no_kwargs.

End Methods.

End JiraServerClient.

(** ** A small host system, to run the methods on concrete inputs *)

Module Demo.

Definition token_body : string := "oauth_token=abc&oauth_token_secret=xyz".

(** Responses are texts, true unless empty; the server answers every
    request with a token body. *)
Definition host : HostSystem := {|
  Response := string;
  truthy := fun r => negb (String.eqb r "");
  text := fun r => r;
  transport := fun _ _ => inr token_body;
  _md5_hexdigest := fun s => s;
  jwt_encode := fun claims key => PyStr.join "." (map snd claims ++ [key]);
  reverse := fun name kwargs => "/extensions/jira-server/issue-updated/"
                                +:+ PyStr.join "" (map snd kwargs) +:+ "/";
  absolute_uri := fun path => "https://sentry.example.com" +:+ path
|}.

Definition setup : JiraServerSetupClient.t :=
  JiraServerSetupClient.__init__ "https://jira.example.com" "sentry-consumer" "PEM" true.

Definition client : JiraServerClient.t :=
  JiraServerClient.mk "https://jira.example.com" true.

Definition request_token : gmap string string :=
  dict (UrlParse.parse_qsl token_body).

Definition credentials : gmap string string :=
  dict [("consumer_key", "ck"); ("private_key", "pk");
        ("access_token", "at"); ("access_token_secret", "ats")].

Definition rotated : gmap string string :=
  dict [("consumer_key", "ck2"); ("private_key", "pk2");
        ("access_token", "at2"); ("access_token_secret", "ats2")].

Definition world : @World host :=
  {| cache := ∅; identity_data := credentials; trace := [] |}.

End Demo.

(** ** Notions used to state further properties *)

(** The credentials a signer with a resource owner is built from, in the
    order in which the code subscripts them. *)
Definition credential_keys : list string :=
  ["consumer_key"; "private_key"; "access_token"; "access_token_secret"].

(** The first of [keys] that the dictionary lacks. *)
Fixpoint first_missing (keys : list string) (d : gmap string string) : option string :=
  match keys with
  | [] => None
  | k :: ks =>
      match d !! k with
      | None => Some k
      | Some _ => first_missing ks d
      end
  end.

(** Every double quote of [s] stands right after a backslash;
    [after_backslash] says whether the character before [s] was one. *)
Fixpoint quotes_escaped_from (after_backslash : bool) (s : string) : bool :=
  match s with
  | "" => true
  | String c rest =>
      (negb (Ascii.eqb c PyStr.DQUOTE) || after_backslash)
      && quotes_escaped_from (Ascii.eqb c PyStr.BACKSLASH) rest
  end.

Definition quotes_escaped (s : string) : bool := quotes_escaped_from false s.

(** Reading an escaped string back: a backslash that stands before a
    double quote is dropped, everything else is kept. *)
Fixpoint unescape (s : string) : string :=
  match s with
  | "" => ""
  | String c rest =>
      if Ascii.eqb c PyStr.BACKSLASH then
        match rest with
        | String d rest' =>
            if Ascii.eqb d PyStr.DQUOTE then String d (unescape rest')
            else String c (unescape rest)
        | "" => String c ""
        end
      else String c (unescape rest)
  end.

(** The number of occurrences of a character. *)
Fixpoint count (c : ascii) (s : string) : nat :=
  match s with
  | "" => 0
  | String d rest => (if Ascii.eqb d c then 1 else 0) + count c rest
  end.

(** All the characters of [s] are in the set. *)
Fixpoint all_in (cs : Re.CharSet) (s : string) : bool :=
  match s with
  | "" => true
  | String c rest => Re.mem cs c && all_in cs rest
  end.

(** What a request shows of itself on the wire: method, path, query
    parameters. *)
Definition line (r : Request) : string * string * option (list (string * string)) :=
  (req_method r, req_path r, kw_params (req_kwargs r)).

(** A second host system, whose server answers every request with an
    empty text, a response that is false. *)
Module DemoEmpty.

Definition host : HostSystem := {|
  Response := string;
  truthy := fun r => negb (String.eqb r "");
  text := fun r => r;
  transport := fun _ _ => inr "";
  _md5_hexdigest := fun s => s;
  jwt_encode := fun claims key => PyStr.join "." (map snd claims ++ [key]);
  reverse := fun name kwargs => PyStr.join "/" (name :: map snd kwargs);
  absolute_uri := fun path => "https://sentry.example.com/" +:+ path
|}.

Definition world : @World host :=
  {| cache := ∅; identity_data := Demo.credentials; trace := [] |}.

End DemoEmpty.

(** The computation leaves the cache and the identity as they were,
    however it ends. *)
Definition keeps_store `{HostSystem} {A : Type} (m : M A) : Prop :=
  forall w : World,
    cache (snd (m w)) = cache w /\ identity_data (snd (m w)) = identity_data w.

(** * Properties *)

(** ** Strings and the monad *)

Lemma append_empty_r (s : string) : s +:+ "" = s.
Proof.
  induction s as [|c s IH]; [reflexivity | ].
  change (String c (s +:+ EmptyString) = String c s). now f_equal.
Qed.

Section RuntimeFacts.
Context `{HostSystem}.

Lemma logged_logged (e1 e2 : list Event) (w : World) :
  logged e2 (logged e1 w) = logged (e1 ++ e2) w.
Proof. unfold logged; simpl. now rewrite app_assoc. Qed.

Lemma subscript_some (d : gmap string string) (key v : string) (w : World) :
  d !! key = Some v -> subscript d key w = (Returned v, w).
Proof. intros E. unfold subscript. now rewrite E. Qed.

Lemma subscript_none (d : gmap string string) (key : string) (w : World) :
  d !! key = None -> subscript d key w = (Raised (KeyError key), w).
Proof. intros E. unfold subscript. now rewrite E. Qed.

Lemma bind_eq {A B} (m : M A) (k : A -> M B) (w w' : World) (a : A) :
  m w = (Returned a, w') -> bind m k w = k a w'.
Proof. intros E. unfold bind. now rewrite E. Qed.

Lemma bind_raised {A B} (m : M A) (k : A -> M B) (w w' : World) (e : Exn) :
  m w = (Raised e, w') -> bind m k w = (Raised e, w').
Proof. intros E. unfold bind. now rewrite E. Qed.

Lemma bind_ret {A B} (a : A) (k : A -> M B) (w : World) : bind (ret a) k w = k a w.
Proof. reflexivity. Qed.

Lemma new_OAuth1_eq (o : OAuth1) (w : World) :
  new_OAuth1 o w = (Returned o, logged [EvOAuth1 o] w).
Proof. reflexivity. Qed.

End RuntimeFacts.

(** ** The setup client *)

Section SetupClientFacts.
Context `{HostSystem}.
Import JiraServerSetupClient.

Lemma format_authorize_url (base token : string) :
  PyStr.format authorize_url [base; token]
  = Some (base +:+ "/plugins/servlet/oauth/authorize?oauth_token=" +:+ token).
Proof. cbn. now rewrite append_empty_r. Qed.

Lemma format_access_token_url (base : string) :
  PyStr.format access_token_url [base]
  = Some (base +:+ "/plugins/servlet/oauth/access-token").
Proof. reflexivity. Qed.

Lemma setup_request_unsigned (self : t) (method path : string) (kwargs : Kwargs) (w : World) :
  kw_auth kwargs = None ->
  let auth := {| client_key := consumer_key self;
                 resource_owner_key := None; resource_owner_secret := None;
                 verifier := None; rsa_key := Some (private_key self);
                 signature_method := SIGNATURE_RSA; signature_type := "auth_header" |} in
  let req := {| req_method := method; req_path := path;
                req_kwargs := set_auth (Signer auth) kwargs |} in
  request self method path kwargs w
  = (outcome_of (transport (trace w ++ [EvOAuth1 auth]) req),
     logged [EvOAuth1 auth; EvRequest req] w).
Proof.
  intros Hk auth req. unfold request. rewrite Hk.
  rewrite (bind_eq _ _ _ _ _ (new_OAuth1_eq auth w)).
  unfold _request. now rewrite logged_logged.
Qed.

Lemma setup_request_presigned (self : t) (method path : string) (kwargs : Kwargs)
    (a : Auth) (w : World) :
  kw_auth kwargs = Some a ->
  let req := {| req_method := method; req_path := path; req_kwargs := kwargs |} in
  request self method path kwargs w
  = (outcome_of (transport (trace w) req), logged [EvRequest req] w).
Proof. intros Hk req. unfold request. now rewrite Hk. Qed.

(** C5. With [oauth_token] in the request token, [get_authorize_url]
    returns the base URL, the authorize path and the token, joined, and
    leaves the world as it was: nothing is logged, so no network call is
    made. *)
Theorem get_authorize_url_exact (self : t) (request_token : gmap string string)
    (token : string) (w : World) :
  request_token !! "oauth_token" = Some token ->
  get_authorize_url self request_token w
  = (Returned (base_url self +:+ "/plugins/servlet/oauth/authorize?oauth_token=" +:+ token), w).
Proof.
  intros Htok. unfold get_authorize_url.
  rewrite (bind_eq _ _ _ _ _ (subscript_some _ _ _ w Htok)).
  unfold str_format. now rewrite format_authorize_url.
Qed.


(** C1. Whatever the request token, a verifier that is missing or empty
    makes [get_access_token] raise ApiError with the world untouched:
    nothing was logged, neither a signer nor a request.  With a verifier
    that is not empty (and the two fields of the request token present)
    it builds the signer from the request token and the verifier and
    hands one signed POST of the access-token URL to the HTTP layer. *)
Theorem get_access_token_verifier_guard (self : t) (request_token : gmap string string)
    (verifier : option string) (w : World) :
  (verifier = None \/ verifier = Some "" ->
   get_access_token self request_token verifier w
   = (Raised (ApiError "Missing OAuth token verifier"), w))
  /\ (forall v token secret : string,
      verifier = Some v -> v <> "" ->
      request_token !! "oauth_token" = Some token ->
      request_token !! "oauth_token_secret" = Some secret ->
      let auth := {| client_key := consumer_key self;
                     resource_owner_key := Some token;
                     resource_owner_secret := Some secret;
                     verifier := Some v; rsa_key := Some (private_key self);
                     signature_method := "RSA-SHA1"; signature_type := "auth_header" |} in
      let req := {| req_method := "POST";
                    req_path := base_url self +:+ "/plugins/servlet/oauth/access-token";
                    req_kwargs := {| kw_auth := Some (Signer auth); kw_data := None;
                                     kw_params := None; kw_allow_text := Some true |} |} in
      get_access_token self request_token verifier w
      = (match transport (trace w ++ [EvOAuth1 auth]) req with
         | inl e => Raised e
         | inr resp => Returned (dict (UrlParse.parse_qsl (text resp)))
         end,
         logged [EvOAuth1 auth; EvRequest req] w)).
Proof.
  split.
  - intros [-> | ->]; reflexivity.
  - intros v token secret -> Hv Htok Hsec auth req.
    unfold get_access_token.
    assert (Ht : truth (Some v) = true).
    { unfold truth. destruct (String.eqb_spec v ""); [contradiction | reflexivity]. }
    rewrite Ht. cbn [negb].
    rewrite (bind_eq _ _ _ _ _ (subscript_some _ _ _ w Htok)).
    rewrite (bind_eq _ _ _ _ _ (subscript_some _ _ _ w Hsec)).
    rewrite (bind_eq _ _ _ _ _ (new_OAuth1_eq _ w)).
    unfold str_format. rewrite format_access_token_url.
    rewrite bind_ret. fold auth.
    pose proof (setup_request_presigned self "POST" (req_path req) (req_kwargs req)
                  (Signer auth) (logged [EvOAuth1 auth] w) eq_refl) as E.
    cbv zeta in E. unfold post, bind.
    change (request self _ _ _ _)
      with (request self "POST" (req_path req) (req_kwargs req) (logged [EvOAuth1 auth] w)).
    rewrite E, logged_logged. cbn [trace logged app].
    change {| req_method := "POST"; req_path := req_path req; req_kwargs := req_kwargs req |}
      with req.
    destruct (transport (trace w ++ [EvOAuth1 auth]) req); reflexivity.
Qed.

(** A request token that lacks a field stops the call at the subscript,
    with a KeyError and nothing logged. *)
Lemma get_access_token_missing_field (self : t) (request_token : gmap string string)
    (v : string) (w : World) :
  v <> "" ->
  request_token !! "oauth_token" = None ->
  get_access_token self request_token (Some v) w = (Raised (KeyError "oauth_token"), w).
Proof.
  intros Hv Hnone. unfold get_access_token.
  assert (Ht : truth (Some v) = true).
  { unfold truth. destruct (String.eqb_spec v ""); [contradiction | reflexivity]. }
  rewrite Ht. cbn [negb].
  now rewrite (bind_raised _ _ _ _ _ (subscript_none _ _ w Hnone)).
Qed.

(** C6. With the four access-token credentials in [credentials],
    [create_issue_webhook] builds its signer from exactly these four (the
    client's own consumer key and any request token play no part) and
    hands the HTTP layer one POST to /rest/webhooks/1.0/webhook whose
    body has the fixed name, the absolute callback URL that embeds the
    token encoding the id [external_id] under [secret], and the two
    issue events. *)
Theorem create_issue_webhook_contract (self : t) (external_id secret : string)
    (credentials : gmap string string) (ck pk tok sec : string) (w : World) :
  credentials !! "consumer_key" = Some ck ->
  credentials !! "private_key" = Some pk ->
  credentials !! "access_token" = Some tok ->
  credentials !! "access_token_secret" = Some sec ->
  let auth := {| client_key := ck;
                 resource_owner_key := Some tok; resource_owner_secret := Some sec;
                 verifier := None; rsa_key := Some pk;
                 signature_method := "RSA-SHA1"; signature_type := "auth_header" |} in
  let token := jwt_encode [("id", external_id)] secret in
  let url := absolute_uri (reverse "sentry-extensions-jiraserver-issue-updated"
                                   [("token", token)]) in
  let req := {| req_method := "POST";
                req_path := "/rest/webhooks/1.0/webhook";
                req_kwargs :=
                  {| kw_auth := Some (Signer auth);
                     kw_data := Some [("name", JStr "Sentry Issue Sync");
                                      ("url", JStr url);
                                      ("events", JList ["jira:issue_created";
                                                        "jira:issue_updated"])];
                     kw_params := None; kw_allow_text := None |} |} in
  create_issue_webhook self external_id secret credentials w
  = (outcome_of (transport (trace w ++ [EvOAuth1 auth]) req),
     logged [EvOAuth1 auth; EvRequest req] w).
Proof.
  intros Hck Hpk Htok Hsec auth token url req. unfold create_issue_webhook.
  rewrite (bind_eq _ _ _ _ _ (subscript_some _ _ _ w Hck)).
  rewrite (bind_eq _ _ _ _ _ (subscript_some _ _ _ w Hpk)).
  rewrite (bind_eq _ _ _ _ _ (subscript_some _ _ _ w Htok)).
  rewrite (bind_eq _ _ _ _ _ (subscript_some _ _ _ w Hsec)).
  rewrite (bind_eq _ _ _ _ _ (new_OAuth1_eq _ w)).
  fold auth. unfold post.
  pose proof (setup_request_presigned self "POST" (req_path req) (req_kwargs req)
                (Signer auth) (logged [EvOAuth1 auth] w) eq_refl) as E.
  cbv zeta in E.
  change (request self _ _ _ _)
    with (request self "POST" (req_path req) (req_kwargs req) (logged [EvOAuth1 auth] w)).
  now rewrite E, logged_logged.
Qed.

End SetupClientFacts.

(** ** The matcher and the issue-id pattern *)

Section MatcherFacts.
Import Re.

Lemma match_here_plus (final : string -> bool) (cs : CharSet) (rest : list Item)
    (b : bool) (c : ascii) (s : string) :
  match_here final (Plus cs :: rest) b (String c s)
  = mem cs c && (match_here final (Plus cs :: rest) false s
                 || match_here final rest false s).
Proof. reflexivity. Qed.

Lemma search_from_not_at_start (p : list Item) (s : string) :
  search_from (Bol :: p) false s = false.
Proof. induction s as [|c s IH]; simpl; [reflexivity | exact IH]. Qed.

(** A pattern that starts with [^] can only match at the start. *)
Lemma search_anchored (p : list Item) (s : string) :
  search (Bol :: p) s = match_here anywhere p true s.
Proof.
  unfold search. destruct s as [|c s]; simpl.
  - now rewrite orb_false_r.
  - now rewrite search_from_not_at_start, orb_false_r.
Qed.

Lemma append_newline_nonempty (s0 : string) : s0 +:+ PyStr.newline <> "".
Proof. destruct s0; discriminate. Qed.

Lemma at_eol_cases (s : string) :
  at_eol s = true <-> s = "" \/ s = PyStr.newline.
Proof.
  split.
  - destruct s as [|c [|d s]]; simpl; intros E; try discriminate.
    + now left.
    + right. apply Ascii.eqb_eq in E. now subst.
  - intros [-> | ->]; reflexivity.
Qed.

(** *** What a match that may stop anywhere adds to a full match

    For a pattern that ends in [$], stopping anywhere is the same as
    using up the subject, or using it up but for a final newline. *)

Lemma at_end_true (s : string) : at_end s = true <-> s = "".
Proof. unfold at_end. rewrite String.eqb_eq. split; congruence. Qed.

Lemma eol_full_or_newline (b : bool) (s : string) :
  match_here anywhere [Eol] b s = true
  <-> match_here at_end [Eol] b s = true
      \/ exists s0, s = s0 +:+ PyStr.newline /\ match_here at_end [Eol] b s0 = true.
Proof.
  simpl. unfold anywhere. rewrite andb_true_r, at_eol_cases. split.
  - intros [-> | ->]; [now left | right]. now exists "".
  - intros [E | (s0 & -> & E)].
    + apply andb_true_iff in E as [_ E]. left. now apply at_end_true.
    + apply andb_true_iff in E as [_ E]. apply at_end_true in E. subst s0. now right.
Qed.

Section Step.
Variable rest : list Item.
Hypothesis rest_full_or_newline : forall (b : bool) (s : string),
  match_here anywhere rest b s = true
  <-> match_here at_end rest b s = true
      \/ exists s0, s = s0 +:+ PyStr.newline /\ match_here at_end rest b s0 = true.

Lemma one_full_or_newline (cs : CharSet) (b : bool) (s : string) :
  match_here anywhere (One cs :: rest) b s = true
  <-> match_here at_end (One cs :: rest) b s = true
      \/ exists s0, s = s0 +:+ PyStr.newline
                    /\ match_here at_end (One cs :: rest) b s0 = true.
Proof.
  destruct s as [|c s]; simpl.
  - split; [discriminate | ].
    intros [E | (s0 & E & _)]; [discriminate | ].
    symmetry in E. now apply append_newline_nonempty in E.
  - rewrite andb_true_iff, rest_full_or_newline. split.
    + intros [Hc [E | (s0 & -> & E)]].
      * left. now rewrite Hc.
      * right. exists (String c s0). split; [reflexivity | ]. simpl. now rewrite Hc.
    + intros [E | (s0 & E0 & E)].
      * apply andb_true_iff in E as [Hc E]. auto.
      * destruct s0 as [|c0 s0]; [discriminate | ]. simpl in E.
        apply andb_true_iff in E as [Hc E].
        change (String c s = String c0 (s0 +:+ PyStr.newline)) in E0.
        injection E0 as -> ->. split; [exact Hc | ]. right. now exists s0.
Qed.

Lemma plus_full_or_newline (cs : CharSet) (b : bool) (s : string) :
  match_here anywhere (Plus cs :: rest) b s = true
  <-> match_here at_end (Plus cs :: rest) b s = true
      \/ exists s0, s = s0 +:+ PyStr.newline
                    /\ match_here at_end (Plus cs :: rest) b s0 = true.
Proof.
  revert b. induction s as [|c s IH]; intros b.
  - simpl. split; [discriminate | ].
    intros [E | (s0 & E & _)]; [discriminate | ].
    symmetry in E. now apply append_newline_nonempty in E.
  - rewrite !match_here_plus, andb_true_iff, orb_true_iff.
    rewrite (IH false), rest_full_or_newline. split.
    + intros [Hc [[E | (s0 & -> & E)] | [E | (s0 & -> & E)]]].
      * left. rewrite Hc, E. reflexivity.
      * right. exists (String c s0). split; [reflexivity | ].
        rewrite match_here_plus, Hc, E. reflexivity.
      * left. rewrite Hc, E. now rewrite orb_true_r.
      * right. exists (String c s0). split; [reflexivity | ].
        rewrite match_here_plus, Hc, E. now rewrite orb_true_r.
    + intros [E | (s0 & E0 & E)].
      * apply andb_true_iff in E as [Hc E]. apply orb_true_iff in E as [E | E]; auto.
      * destruct s0 as [|c0 s0]; [discriminate | ].
        rewrite match_here_plus in E. apply andb_true_iff in E as [Hc E].
        change (String c s = String c0 (s0 +:+ PyStr.newline)) in E0.
        injection E0 as -> ->. split; [exact Hc | ].
        apply orb_true_iff in E as [E | E]; [left | right]; right; now exists s0.
Qed.

End Step.

End MatcherFacts.

(** ** The JQL of search_issues *)

Section IssueIdFacts.
Import Re JiraServerClient.

Lemma match_here_bol (final : string -> bool) (p : list Item) (s : string) :
  match_here final (Bol :: p) true s = match_here final p true s.
Proof. reflexivity. Qed.

(** What [re.search] accepts for the issue-id pattern: the queries that
    match it whole, and those that do once a final newline is removed. *)
Lemma issue_id_search_iff (query : string) :
  search issue_id_pattern query = true
  <-> fullmatch issue_id_pattern query = true
      \/ exists q0, query = q0 +:+ PyStr.newline /\ fullmatch issue_id_pattern q0 = true.
Proof.
  unfold issue_id_pattern, fullmatch. rewrite search_anchored, !match_here_bol.
  apply plus_full_or_newline. intros b s.
  apply one_full_or_newline. clear b s. intros b s.
  apply plus_full_or_newline. exact eol_full_or_newline.
Qed.

(** *** A matching query holds no double quote *)

Lemma eol_unquoted (final : string -> bool) (b : bool) (s : string) :
  match_here final [Eol] b s = true -> PyStr.unquoted s.
Proof.
  simpl. intros E. apply andb_true_iff in E as [E _].
  apply at_eol_cases in E as [-> | ->]; reflexivity.
Qed.

Section Unquoted.
Variable final : string -> bool.
Variable rest : list Item.
Variable cs : CharSet.
Hypothesis rest_unquoted : forall (b : bool) (s : string),
  match_here final rest b s = true -> PyStr.unquoted s.
Hypothesis cs_unquoted : forall c : ascii,
  mem cs c = true -> Ascii.eqb c PyStr.DQUOTE = false.

Lemma one_unquoted (b : bool) (s : string) :
  match_here final (One cs :: rest) b s = true -> PyStr.unquoted s.
Proof.
  destruct s as [|c s]; simpl; [discriminate | ]. intros E.
  apply andb_true_iff in E as [Hc E]. unfold PyStr.unquoted. simpl.
  rewrite (cs_unquoted c Hc). exact (rest_unquoted false s E).
Qed.

Lemma plus_unquoted (b : bool) (s : string) :
  match_here final (Plus cs :: rest) b s = true -> PyStr.unquoted s.
Proof.
  revert b. induction s as [|c s IH]; intros b; [discriminate | ].
  rewrite match_here_plus. intros E. apply andb_true_iff in E as [Hc E].
  unfold PyStr.unquoted. simpl. rewrite (cs_unquoted c Hc). simpl.
  apply orb_true_iff in E as [E | E].
  - exact (IH false E).
  - exact (rest_unquoted false s E).
Qed.

End Unquoted.

Lemma letter_unquoted (c : ascii) :
  mem (Ranges [("A", "Z"); ("a", "z")]%char) c = true -> Ascii.eqb c PyStr.DQUOTE = false.
Proof.
  intros Hm. destruct (Ascii.eqb_spec c PyStr.DQUOTE) as [-> | _]; [ | reflexivity].
  vm_compute in Hm. discriminate.
Qed.

Lemma digit_unquoted (c : ascii) :
  mem Digit c = true -> Ascii.eqb c PyStr.DQUOTE = false.
Proof.
  intros Hm. destruct (Ascii.eqb_spec c PyStr.DQUOTE) as [-> | _]; [ | reflexivity].
  vm_compute in Hm. discriminate.
Qed.

Lemma dash_unquoted (c : ascii) :
  mem (Lit "-") c = true -> Ascii.eqb c PyStr.DQUOTE = false.
Proof.
  intros Hm. destruct (Ascii.eqb_spec c PyStr.DQUOTE) as [-> | _]; [ | reflexivity].
  vm_compute in Hm. discriminate.
Qed.

Lemma issue_id_unquoted (query : string) :
  search issue_id_pattern query = true -> PyStr.unquoted query.
Proof.
  unfold issue_id_pattern. rewrite search_anchored.
  apply plus_unquoted; [ | exact letter_unquoted].
  apply one_unquoted; [ | exact dash_unquoted].
  apply plus_unquoted; [ | exact digit_unquoted].
  apply eol_unquoted.
Qed.

Lemma replace_absent (old : ascii) (new s : string) :
  PyStr.contains old s = false -> PyStr.replace old new s = s.
Proof.
  induction s as [|c s IH]; simpl; [reflexivity | ].
  intros E. apply orb_false_elim in E as [Hc E]. rewrite Hc. now rewrite IH.
Qed.

Lemma format_id_template (arg : string) :
  PyStr.percent_format id_template arg = "id=" +:+ PyStr.dquote +:+ arg +:+ PyStr.dquote.
Proof. reflexivity. Qed.

Lemma format_text_template (arg : string) :
  PyStr.percent_format text_template arg
  = "text ~ " +:+ PyStr.dquote +:+ arg +:+ PyStr.dquote.
Proof. reflexivity. Qed.

(** The two clauses, by the outcome of the search. *)
Lemma jql_by_cases (query : string) :
  jql query
  = if search issue_id_pattern query
    then "id=" +:+ PyStr.dquote +:+ escape query +:+ PyStr.dquote
    else "text ~ " +:+ PyStr.dquote +:+ escape query +:+ PyStr.dquote.
Proof.
  unfold jql. destruct (search issue_id_pattern query).
  - apply format_id_template.
  - apply format_text_template.
Qed.

(** The three examples of the specification. *)
Lemma jql_examples :
  jql "ABC-123" = "id=" +:+ PyStr.dquote +:+ "ABC-123" +:+ PyStr.dquote
  /\ jql ("foo " +:+ PyStr.dquote +:+ "bar" +:+ PyStr.dquote)
     = "text ~ " +:+ PyStr.dquote +:+ "foo \" +:+ PyStr.dquote +:+ "bar\"
       +:+ PyStr.dquote +:+ PyStr.dquote
  /\ jql "ABC-123-extra" = "text ~ " +:+ PyStr.dquote +:+ "ABC-123-extra" +:+ PyStr.dquote.
Proof. repeat split; reflexivity. Qed.

(** C10. A query that the issue-id pattern accepts holds no double
    quote, so escaping leaves it as it is and the JQL is the query,
    verbatim, between the opening of the id clause and a closing quote. *)
Theorem issue_id_query_verbatim (query : string) :
  search issue_id_pattern query = true ->
  PyStr.contains PyStr.DQUOTE query = false
  /\ escape query = query
  /\ jql query = "id=" +:+ PyStr.dquote +:+ query +:+ PyStr.dquote.
Proof.
  intros Hm. pose proof (issue_id_unquoted query Hm) as Hq.
  assert (He : escape query = query) by now apply replace_absent.
  repeat split; [exact Hq | exact He | ].
  now rewrite jql_by_cases, Hm, He.
Qed.

(** Away from the queries that end in a newline after a whole match,
    the code builds the JQL of the specification. *)
Lemma jql_refines_spec (query : string) :
  (forall q0, query = q0 +:+ PyStr.newline -> fullmatch issue_id_pattern q0 = false) ->
  jql query = spec_jql query.
Proof.
  intros Hnl. unfold jql, spec_jql.
  destruct (search issue_id_pattern query) eqn:Es;
    destruct (fullmatch issue_id_pattern query) eqn:Ef; try reflexivity.
  - apply issue_id_search_iff in Es as [Es | (q0 & Eq & Es)]; [congruence | ].
    rewrite (Hnl q0 Eq) in Es. discriminate.
  - assert (search issue_id_pattern query = true) by (apply issue_id_search_iff; now left).
    congruence.
Qed.

(** C2. The query ABC-123 followed by a newline does not match the
    issue-id pattern as a whole, and yet [search_issues] builds the
    exact-match clause for it, where the specification has the free-text
    clause: the [$] of the pattern also matches before a final newline. *)
Theorem jql_trailing_newline :
  fullmatch issue_id_pattern ("ABC-123" +:+ PyStr.newline) = false
  /\ jql ("ABC-123" +:+ PyStr.newline)
     = "id=" +:+ PyStr.dquote +:+ "ABC-123" +:+ PyStr.newline +:+ PyStr.dquote
  /\ spec_jql ("ABC-123" +:+ PyStr.newline)
     = "text ~ " +:+ PyStr.dquote +:+ "ABC-123" +:+ PyStr.newline +:+ PyStr.dquote.
Proof. repeat split; reflexivity. Qed.

End IssueIdFacts.

(** ** The authenticated client *)

Section ClientFacts.
Context `{HostSystem}.
Import JiraServerClient.

Lemma bind_read_identity {B} (k : gmap string string -> M B) (w : World) :
  bind read_identity_data k w = k (identity_data w) w.
Proof. reflexivity. Qed.

Lemma client_request_unsigned (self : t) (method path : string) (kwargs : Kwargs)
    (ck pk tok sec : string) (w : World) :
  kw_auth kwargs = None ->
  identity_data w !! "consumer_key" = Some ck ->
  identity_data w !! "private_key" = Some pk ->
  identity_data w !! "access_token" = Some tok ->
  identity_data w !! "access_token_secret" = Some sec ->
  let auth := {| client_key := ck;
                 resource_owner_key := Some tok; resource_owner_secret := Some sec;
                 verifier := None; rsa_key := Some pk;
                 signature_method := "RSA-SHA1"; signature_type := "auth_header" |} in
  let req := {| req_method := method; req_path := path;
                req_kwargs := set_auth (Signer auth) kwargs |} in
  request self method path kwargs w
  = (outcome_of (transport (trace w ++ [EvOAuth1 auth]) req),
     logged [EvOAuth1 auth; EvRequest req] w).
Proof.
  intros Hk Hck Hpk Htok Hsec auth req. unfold request. rewrite Hk.
  rewrite bind_read_identity.
  rewrite (bind_eq _ _ _ _ _ (subscript_some _ _ _ w Hck)).
  rewrite (bind_eq _ _ _ _ _ (subscript_some _ _ _ w Hpk)).
  rewrite (bind_eq _ _ _ _ _ (subscript_some _ _ _ w Htok)).
  rewrite (bind_eq _ _ _ _ _ (subscript_some _ _ _ w Hsec)).
  rewrite (bind_eq _ _ _ _ _ (new_OAuth1_eq _ w)).
  unfold _request. now rewrite logged_logged.
Qed.

(** C4. A request of the authenticated client made with no [auth]
    keyword reaches the HTTP layer with, as its [auth], a signer built
    from the four credentials that the identity holds when the call is
    made, its other keyword arguments unchanged; and when the external
    store replaces the identity's data after a first call, the next
    request carries a signer built from the new values. *)
Theorem client_request_current_credentials (self : t) (method path : string)
    (kwargs : Kwargs) (ck pk tok sec : string) (w : World) :
  kw_auth kwargs = None ->
  identity_data w !! "consumer_key" = Some ck ->
  identity_data w !! "private_key" = Some pk ->
  identity_data w !! "access_token" = Some tok ->
  identity_data w !! "access_token_secret" = Some sec ->
  let auth := {| client_key := ck;
                 resource_owner_key := Some tok; resource_owner_secret := Some sec;
                 verifier := None; rsa_key := Some pk;
                 signature_method := "RSA-SHA1"; signature_type := "auth_header" |} in
  let req := {| req_method := method; req_path := path;
                req_kwargs := {| kw_auth := Some (Signer auth);
                                 kw_data := kw_data kwargs;
                                 kw_params := kw_params kwargs;
                                 kw_allow_text := kw_allow_text kwargs |} |} in
  request self method path kwargs w
  = (outcome_of (transport (trace w ++ [EvOAuth1 auth]) req),
     logged [EvOAuth1 auth; EvRequest req] w)
  /\ forall (data' : gmap string string) (method' path' : string) (kwargs' : Kwargs)
            (ck' pk' tok' sec' : string),
       kw_auth kwargs' = None ->
       data' !! "consumer_key" = Some ck' ->
       data' !! "private_key" = Some pk' ->
       data' !! "access_token" = Some tok' ->
       data' !! "access_token_secret" = Some sec' ->
       let auth' := {| client_key := ck';
                       resource_owner_key := Some tok';
                       resource_owner_secret := Some sec';
                       verifier := None; rsa_key := Some pk';
                       signature_method := "RSA-SHA1";
                       signature_type := "auth_header" |} in
       let req' := {| req_method := method'; req_path := path';
                      req_kwargs := {| kw_auth := Some (Signer auth');
                                       kw_data := kw_data kwargs';
                                       kw_params := kw_params kwargs';
                                       kw_allow_text := kw_allow_text kwargs' |} |} in
       let w1 := rotate_identity data' (snd (request self method path kwargs w)) in
       trace (snd (request self method' path' kwargs' w1))
       = trace w ++ [EvOAuth1 auth; EvRequest req; EvOAuth1 auth'; EvRequest req'].
Proof.
  intros Hk Hck Hpk Htok Hsec auth req.
  pose proof (client_request_unsigned self method path kwargs ck pk tok sec w
                Hk Hck Hpk Htok Hsec) as E1. cbv zeta in E1. unfold set_auth in E1.
  fold auth req in E1. split; [exact E1 | ].
  intros data' method' path' kwargs' ck' pk' tok' sec' Hk' Hck' Hpk' Htok' Hsec'
         auth' req' w1.
  pose proof (client_request_unsigned self method' path' kwargs' ck' pk' tok' sec' w1
                Hk' Hck' Hpk' Htok' Hsec') as E2. cbv zeta in E2. unfold set_auth in E2.
  fold auth' req' in E2.
  rewrite E2. unfold w1. rewrite E1. cbn [snd trace logged rotate_identity].
  now rewrite <- app_assoc.
Qed.

(** C3. [get_cached] looks up the key made of the URL and the base URL.
    A true cached value is returned and the world stays as it was (no
    network call).  With no cached value, or a false one, the client
    issues one GET of the URL; the response is stored under the key with
    a time to live of 60 and returned, and an error of the transport is
    raised with the cache unchanged. *)
Theorem get_cached_cache_aside (self : t) (full_url : string) (w : World) :
  let key := "sentry-jira-server:"
             +:+ _md5_hexdigest (full_url +:+ ":" +:+ base_url self) in
  (forall (value : Response) (ttl : nat),
     cache w !! key = Some (value, ttl) -> truthy value = true ->
     get_cached self full_url w = (Returned value, w))
  /\ (cache w !! key = None
      \/ (exists (value : Response) (ttl : nat),
            cache w !! key = Some (value, ttl) /\ truthy value = false) ->
      forall ck pk tok sec : string,
        identity_data w !! "consumer_key" = Some ck ->
        identity_data w !! "private_key" = Some pk ->
        identity_data w !! "access_token" = Some tok ->
        identity_data w !! "access_token_secret" = Some sec ->
        let auth := {| client_key := ck;
                       resource_owner_key := Some tok; resource_owner_secret := Some sec;
                       verifier := None; rsa_key := Some pk;
                       signature_method := "RSA-SHA1";
                       signature_type := "auth_header" |} in
        let req := {| req_method := "GET"; req_path := full_url;
                      req_kwargs := set_auth (Signer auth) no_kwargs |} in
        get_cached self full_url w
        = match transport (trace w ++ [EvOAuth1 auth]) req with
          | inr fetched =>
              (Returned fetched,
               {| cache := <[key := (fetched, 60)]> (cache w);
                  identity_data := identity_data w;
                  trace := trace w ++ [EvOAuth1 auth; EvRequest req] |})
          | inl e => (Raised e, logged [EvOAuth1 auth; EvRequest req] w)
          end).
Proof.
  intros key. split.
  - intros value ttl Hc Ht. unfold get_cached, bind, cache_get.
    change (cache_key self full_url) with key. rewrite Hc. cbn [fmap option_fmap option_map fst].
    now rewrite Ht.
  - intros Hmiss ck pk tok sec Hck Hpk Htok Hsec auth req.
    pose proof (client_request_unsigned self "GET" full_url no_kwargs ck pk tok sec w
                  eq_refl Hck Hpk Htok Hsec) as E. cbv zeta in E. fold auth req in E.
    assert (Hfetch :
      (fetched <- get self full_url no_kwargs ;;
       cache_set key fetched 60 ;;; ret fetched)%py w
      = match transport (trace w ++ [EvOAuth1 auth]) req with
        | inr fetched =>
            (Returned fetched,
             {| cache := <[key := (fetched, 60)]> (cache w);
                identity_data := identity_data w;
                trace := trace w ++ [EvOAuth1 auth; EvRequest req] |})
        | inl e => (Raised e, logged [EvOAuth1 auth; EvRequest req] w)
        end).
    { unfold bind at 1. unfold get. rewrite E.
      destruct (transport (trace w ++ [EvOAuth1 auth]) req); reflexivity. }
    unfold get_cached. change (cache_key self full_url) with key.
    unfold bind at 1. unfold cache_get.
    destruct Hmiss as [Hc | (value & ttl & Hc & Ht)]; rewrite Hc;
      cbn [fmap option_fmap option_map fst]; [ | rewrite Ht]; exact Hfetch.
Qed.

(** [search_issues] sends the JQL as the [jql] parameter of one GET of
    the search URL. *)
Lemma search_issues_request (self : t) (query : string) (ck pk tok sec : string)
    (w : World) :
  identity_data w !! "consumer_key" = Some ck ->
  identity_data w !! "private_key" = Some pk ->
  identity_data w !! "access_token" = Some tok ->
  identity_data w !! "access_token_secret" = Some sec ->
  map (fun r => (req_method r, req_path r, kw_params (req_kwargs r)))
      (requests (trace (snd (search_issues self query w))))
  = map (fun r => (req_method r, req_path r, kw_params (req_kwargs r)))
        (requests (trace w))
    ++ [("GET", "/rest/api/2/search/", Some [("jql", jql query)])].
Proof.
  intros Hck Hpk Htok Hsec. unfold search_issues, get.
  rewrite (client_request_unsigned self "GET" SEARCH_URL
             {| kw_auth := None; kw_data := None;
                kw_params := Some [("jql", jql query)]; kw_allow_text := None |}
             ck pk tok sec w eq_refl Hck Hpk Htok Hsec).
  cbn [snd trace logged]. unfold requests. rewrite flat_map_app, map_app. reflexivity.
Qed.

(** C9. The two stubs return the empty list in every state of the
    client and of the world, raise nothing, and leave the world as it
    was: nothing is logged, so no network call is made. *)
Theorem stubs_return_empty (self : t) (w : World) :
  get_valid_statuses self w = (Returned [], w)
  /\ get_projects_list self w = (Returned [], w).
Proof. split; reflexivity. Qed.

End ClientFacts.

(** ** The token response *)

(** C8. Form decoding of the token response body gives the two pairs,
    and as a dictionary exactly the mapping of oauth_token to abc and
    oauth_token_secret to xyz; it is what [get_request_token] and
    [get_access_token] return when the server answers with that body. *)
Theorem token_response_round_trip :
  UrlParse.parse_qsl "oauth_token=abc&oauth_token_secret=xyz"
  = [("oauth_token", "abc"); ("oauth_token_secret", "xyz")]
  /\ dict (UrlParse.parse_qsl "oauth_token=abc&oauth_token_secret=xyz")
     = {[ "oauth_token" := "abc"; "oauth_token_secret" := "xyz" ]}
  /\ fst (JiraServerSetupClient.get_request_token (H := Demo.host) Demo.setup Demo.world)
     = Returned {[ "oauth_token" := "abc"; "oauth_token_secret" := "xyz" ]}
  /\ fst (JiraServerSetupClient.get_access_token (H := Demo.host) Demo.setup
            Demo.request_token (Some "verifier") Demo.world)
     = Returned {[ "oauth_token" := "abc"; "oauth_token_secret" := "xyz" ]}.
Proof.
  assert (Hlist : UrlParse.parse_qsl "oauth_token=abc&oauth_token_secret=xyz"
                  = [("oauth_token", "abc"); ("oauth_token_secret", "xyz")])
    by reflexivity.
  assert (Hdict : dict (UrlParse.parse_qsl "oauth_token=abc&oauth_token_secret=xyz")
                  = {[ "oauth_token" := "abc"; "oauth_token_secret" := "xyz" ]}).
  { rewrite Hlist. unfold dict. cbn [fold_left fst snd].
    apply insert_insert_ne. discriminate. }
  split; [exact Hlist | ]. split; [exact Hdict | ]. split.
  - change (Returned (dict (UrlParse.parse_qsl "oauth_token=abc&oauth_token_secret=xyz"))
            = Returned ({[ "oauth_token" := "abc"; "oauth_token_secret" := "xyz" ]}
                        : gmap string string)).
    now rewrite Hdict.
  - change (Returned (dict (UrlParse.parse_qsl "oauth_token=abc&oauth_token_secret=xyz"))
            = Returned ({[ "oauth_token" := "abc"; "oauth_token_secret" := "xyz" ]}
                        : gmap string string)).
    now rewrite Hdict.
Qed.

(** ** The properties at work on the small host system *)

Lemma get_authorize_url_exact_witness :
  ({[ "oauth_token" := "T" ]} : gmap string string) !! "oauth_token" = Some "T"
  /\ JiraServerSetupClient.get_authorize_url (H := Demo.host) Demo.setup
       {[ "oauth_token" := "T" ]} Demo.world
     = (Returned "https://jira.example.com/plugins/servlet/oauth/authorize?oauth_token=T",
        Demo.world).
Proof.
  split; [reflexivity | ].
  apply (get_authorize_url_exact (H := Demo.host) Demo.setup
           {[ "oauth_token" := "T" ]} "T" Demo.world).
  reflexivity.
Defined.


Lemma get_access_token_verifier_guard_witness :
  JiraServerSetupClient.get_access_token (H := Demo.host) Demo.setup ∅ None Demo.world
  = (Raised (ApiError "Missing OAuth token verifier"), Demo.world)
  /\ JiraServerSetupClient.get_access_token (H := Demo.host) Demo.setup ∅ (Some "")
       Demo.world
     = (Raised (ApiError "Missing OAuth token verifier"), Demo.world)
  /\ requests (trace (snd (JiraServerSetupClient.get_access_token (H := Demo.host)
                             Demo.setup Demo.request_token (Some "v") Demo.world)))
     = [{| req_method := "POST";
           req_path := "https://jira.example.com/plugins/servlet/oauth/access-token";
           req_kwargs :=
             {| kw_auth := Some (Signer {| client_key := "sentry-consumer";
                                           resource_owner_key := Some "abc";
                                           resource_owner_secret := Some "xyz";
                                           verifier := Some "v"; rsa_key := Some "PEM";
                                           signature_method := "RSA-SHA1";
                                           signature_type := "auth_header" |});
                kw_data := None; kw_params := None; kw_allow_text := Some true |} |}].
Proof.
  split; [ | split].
  - apply (proj1 (get_access_token_verifier_guard (H := Demo.host) Demo.setup ∅ None
                    Demo.world)).
    left; reflexivity.
  - apply (proj1 (get_access_token_verifier_guard (H := Demo.host) Demo.setup ∅ (Some "")
                    Demo.world)).
    right; reflexivity.
  - rewrite (proj2 (get_access_token_verifier_guard (H := Demo.host) Demo.setup
                      Demo.request_token (Some "v") Demo.world)
               "v" "abc" "xyz" eq_refl ltac:(discriminate) eq_refl eq_refl).
    reflexivity.
Defined.

Lemma create_issue_webhook_contract_witness :
  requests (trace (snd (JiraServerSetupClient.create_issue_webhook (H := Demo.host)
                          Demo.setup "jira:1" "s3cret" Demo.credentials Demo.world)))
  = [{| req_method := "POST";
        req_path := "/rest/webhooks/1.0/webhook";
        req_kwargs :=
          {| kw_auth := Some (Signer {| client_key := "ck";
                                        resource_owner_key := Some "at";
                                        resource_owner_secret := Some "ats";
                                        verifier := None; rsa_key := Some "pk";
                                        signature_method := "RSA-SHA1";
                                        signature_type := "auth_header" |});
             kw_data :=
               Some [("name", JStr "Sentry Issue Sync");
                     ("url", JStr "https://sentry.example.com/extensions/jira-server/issue-updated/jira:1.s3cret/");
                     ("events", JList ["jira:issue_created"; "jira:issue_updated"])];
             kw_params := None; kw_allow_text := None |} |}].
Proof.
  rewrite (create_issue_webhook_contract (H := Demo.host) Demo.setup "jira:1" "s3cret"
             Demo.credentials "ck" "pk" "at" "ats" Demo.world
             eq_refl eq_refl eq_refl eq_refl).
  reflexivity.
Defined.

Lemma client_request_current_credentials_witness :
  requests (trace (snd (JiraServerClient.request (H := Demo.host) Demo.client
                          "GET" "/rest/api/2/priority" no_kwargs
                          (rotate_identity Demo.rotated
                             (snd (JiraServerClient.request (H := Demo.host) Demo.client
                                     "GET" "/rest/api/2/priority" no_kwargs
                                     Demo.world))))))
  = [{| req_method := "GET"; req_path := "/rest/api/2/priority";
        req_kwargs :=
          {| kw_auth :=
               Some (Signer {| client_key := "ck";
                               resource_owner_key := Some "at";
                               resource_owner_secret := Some "ats";
                               verifier := None; rsa_key := Some "pk";
                               signature_method := "RSA-SHA1";
                               signature_type := "auth_header" |});
             kw_data := None; kw_params := None; kw_allow_text := None |} |};
     {| req_method := "GET"; req_path := "/rest/api/2/priority";
        req_kwargs :=
          {| kw_auth :=
               Some (Signer {| client_key := "ck2";
                               resource_owner_key := Some "at2";
                               resource_owner_secret := Some "ats2";
                               verifier := None; rsa_key := Some "pk2";
                               signature_method := "RSA-SHA1";
                               signature_type := "auth_header" |});
             kw_data := None; kw_params := None; kw_allow_text := None |} |}].
Proof.
  rewrite (proj2 (client_request_current_credentials (H := Demo.host) Demo.client
                    "GET" "/rest/api/2/priority" no_kwargs "ck" "pk" "at" "ats"
                    Demo.world eq_refl eq_refl eq_refl eq_refl eq_refl)
             Demo.rotated "GET" "/rest/api/2/priority" no_kwargs "ck2" "pk2" "at2" "ats2"
             eq_refl eq_refl eq_refl eq_refl eq_refl).
  reflexivity.
Defined.

Lemma get_cached_cache_aside_witness :
  (* a miss: one GET, and the response is stored for 60 seconds *)
  (let after := JiraServerClient.get_cached (H := Demo.host) Demo.client
                  "/rest/api/2/priority" Demo.world in
   fst after = Returned Demo.token_body
   /\ cache (snd after)
      !! ("sentry-jira-server:/rest/api/2/priority:https://jira.example.com")
      = Some (Demo.token_body, 60)
   /\ length (requests (trace (snd after))) = 1)
  (* a hit: the stored value, and the world as it was *)
  /\ (let w := {| cache := {[ "sentry-jira-server:/rest/api/2/priority:https://jira.example.com"
                              := ("cached", 60) ]};
                  identity_data := ∅; trace := [] |} in
      JiraServerClient.get_cached (H := Demo.host) Demo.client "/rest/api/2/priority" w
      = (Returned "cached", w)).
Proof.
  split.
  - cbv zeta.
    rewrite (proj2 (get_cached_cache_aside (H := Demo.host) Demo.client
                      "/rest/api/2/priority" Demo.world)
               (or_introl eq_refl) "ck" "pk" "at" "ats" eq_refl eq_refl eq_refl eq_refl).
    repeat split; reflexivity.
  - cbv zeta.
    apply (proj1 (get_cached_cache_aside (H := Demo.host) Demo.client
                    "/rest/api/2/priority" _) "cached" 60); reflexivity.
Defined.

Lemma issue_id_query_verbatim_witness :
  Re.search JiraServerClient.issue_id_pattern "ABC-123" = true
  /\ JiraServerClient.jql "ABC-123" = "id=" +:+ PyStr.dquote +:+ "ABC-123" +:+ PyStr.dquote.
Proof.
  split; [reflexivity | ].
  exact (proj2 (proj2 (issue_id_query_verbatim "ABC-123" eq_refl))).
Defined.

(** * Further properties *)

(** ** What leaves the cache and the identity alone *)

Section KeepsStore.
Context `{HostSystem}.

Lemma keeps_ret {A} (a : A) : keeps_store (ret a).
Proof. intros w. split; reflexivity. Qed.

Lemma keeps_raise {A} (e : Exn) : keeps_store (raise (A := A) e).
Proof. intros w. split; reflexivity. Qed.

Lemma keeps_bind {A B} (m : M A) (k : A -> M B) :
  keeps_store m -> (forall a, keeps_store (k a)) -> keeps_store (bind m k).
Proof.
  intros Hm Hk w. unfold bind. specialize (Hm w).
  destruct (m w) as [[e | a] w1]; cbn [snd] in *; [exact Hm | ].
  destruct (Hk a w1) as [Hc Hi]. destruct Hm as [Hc1 Hi1]. split; congruence.
Qed.

Lemma keeps_log (e : Event) : keeps_store (log e).
Proof. intros w. split; reflexivity. Qed.

Lemma keeps_subscript (d : gmap string string) (key : string) :
  keeps_store (subscript d key).
Proof. unfold subscript. destruct (d !! key); [apply keeps_ret | apply keeps_raise]. Qed.

Lemma keeps_str_format (tpl : string) (args : list string) :
  keeps_store (str_format tpl args).
Proof.
  unfold str_format. destruct (PyStr.format tpl args); [apply keeps_ret | apply keeps_raise].
Qed.

Lemma keeps_new_OAuth1 (o : OAuth1) : keeps_store (new_OAuth1 o).
Proof. intros w. split; reflexivity. Qed.

Lemma keeps_read_identity : keeps_store read_identity_data.
Proof. intros w. split; reflexivity. Qed.

Lemma keeps__request (method path : string) (kw : Kwargs) :
  keeps_store (_request method path kw).
Proof. intros w. split; reflexivity. Qed.

End KeepsStore.

Create HintDb keeps.

#[local] Hint Resolve keeps_ret keeps_raise keeps_log keeps_subscript keeps_str_format
  keeps_new_OAuth1 keeps_read_identity keeps__request : keeps.

Ltac keeps_step :=
  first [ apply keeps_bind; [ | intro ] | solve [ auto with keeps ] ].

(** ** The setup client, further *)

Section SetupClientMore.
Context `{HostSystem}.
Import JiraServerSetupClient.

Lemma format_request_token_url (base : string) :
  PyStr.format request_token_url [base]
  = Some (base +:+ "/plugins/servlet/oauth/request-token").
Proof. reflexivity. Qed.

(** X1. [get_request_token] needs nothing but the client: it builds the
    signer of the consumer alone, hands the HTTP layer one POST of the
    request-token URL that asks for a text response, and returns the
    decoded body; an error of the transport is raised as it is. *)
Theorem get_request_token_contract (self : t) (w : World) :
  let auth := {| client_key := consumer_key self;
                 resource_owner_key := None; resource_owner_secret := None;
                 verifier := None; rsa_key := Some (private_key self);
                 signature_method := "RSA-SHA1"; signature_type := "auth_header" |} in
  let req := {| req_method := "POST";
                req_path := base_url self +:+ "/plugins/servlet/oauth/request-token";
                req_kwargs := {| kw_auth := Some (Signer auth); kw_data := None;
                                 kw_params := None; kw_allow_text := Some true |} |} in
  get_request_token self w
  = (match transport (trace w ++ [EvOAuth1 auth]) req with
     | inl e => Raised e
     | inr resp => Returned (dict (UrlParse.parse_qsl (text resp)))
     end,
     logged [EvOAuth1 auth; EvRequest req] w).
Proof.
  intros auth req. unfold get_request_token, str_format.
  rewrite format_request_token_url, bind_ret. unfold post, bind.
  pose proof (setup_request_unsigned self "POST" (req_path req)
                {| kw_auth := None; kw_data := None; kw_params := None;
                   kw_allow_text := Some true |} w eq_refl) as E.
  cbv zeta in E.
  change (request self _ _ _ _)
    with (request self "POST" (req_path req)
            {| kw_auth := None; kw_data := None; kw_params := None;
               kw_allow_text := Some true |} w).
  rewrite E.
  change {| req_method := "POST"; req_path := req_path req;
            req_kwargs := set_auth _ _ |} with req.
  change {| client_key := consumer_key self; resource_owner_key := None;
            resource_owner_secret := None; verifier := None;
            rsa_key := Some (private_key self); signature_method := SIGNATURE_RSA;
            signature_type := "auth_header" |} with auth.
  destruct (transport (trace w ++ [EvOAuth1 auth]) req); reflexivity.
Qed.

(** X2. Without [oauth_token] in the request token, [get_authorize_url]
    raises the KeyError of that key and the world stays as it was. *)
Theorem get_authorize_url_missing_token (self : t) (request_token : gmap string string)
    (w : World) :
  request_token !! "oauth_token" = None ->
  get_authorize_url self request_token w = (Raised (KeyError "oauth_token"), w).
Proof.
  intros Hnone. unfold get_authorize_url.
  now rewrite (bind_raised _ _ _ _ _ (subscript_none _ _ w Hnone)).
Qed.

(** X3. With a verifier that is not empty, [get_access_token] on a
    request token that lacks oauth_token or oauth_token_secret raises the
    KeyError of the first one missing, and the world stays as it was: no
    signer is built and nothing is sent. *)
Theorem get_access_token_missing_fields (self : t) (request_token : gmap string string)
    (v key : string) (w : World) :
  v <> "" ->
  first_missing ["oauth_token"; "oauth_token_secret"] request_token = Some key ->
  get_access_token self request_token (Some v) w = (Raised (KeyError key), w).
Proof.
  intros Hv Hmiss. unfold get_access_token.
  assert (Ht : truth (Some v) = true).
  { unfold truth. destruct (String.eqb_spec v ""); [contradiction | reflexivity]. }
  rewrite Ht. cbn [negb]. cbn [first_missing] in Hmiss.
  destruct (request_token !! "oauth_token") as [tok | ] eqn:Htok.
  - rewrite (bind_eq _ _ _ _ _ (subscript_some _ _ _ w Htok)).
    destruct (request_token !! "oauth_token_secret") as [sec | ] eqn:Hsec;
      [discriminate | ].
    injection Hmiss as <-.
    now rewrite (bind_raised _ _ _ _ _ (subscript_none _ _ w Hsec)).
  - injection Hmiss as <-.
    now rewrite (bind_raised _ _ _ _ _ (subscript_none _ _ w Htok)).
Qed.

(** X4. When [credentials] lacks one of the four credentials,
    [create_issue_webhook] raises the KeyError of the first one missing
    (in the order consumer_key, private_key, access_token,
    access_token_secret) and the world stays as it was: no webhook is
    registered. *)
Theorem create_issue_webhook_missing_credential (self : t) (external_id secret : string)
    (credentials : gmap string string) (key : string) (w : World) :
  first_missing credential_keys credentials = Some key ->
  create_issue_webhook self external_id secret credentials w = (Raised (KeyError key), w).
Proof.
  intros Hmiss. unfold create_issue_webhook. cbn [first_missing credential_keys] in Hmiss.
  destruct (credentials !! "consumer_key") as [ck | ] eqn:Hck;
    [rewrite (bind_eq _ _ _ _ _ (subscript_some _ _ _ w Hck))
    | injection Hmiss as <-;
      now rewrite (bind_raised _ _ _ _ _ (subscript_none _ _ w Hck))].
  destruct (credentials !! "private_key") as [pk | ] eqn:Hpk;
    [rewrite (bind_eq _ _ _ _ _ (subscript_some _ _ _ w Hpk))
    | injection Hmiss as <-;
      now rewrite (bind_raised _ _ _ _ _ (subscript_none _ _ w Hpk))].
  destruct (credentials !! "access_token") as [tok | ] eqn:Htok;
    [rewrite (bind_eq _ _ _ _ _ (subscript_some _ _ _ w Htok))
    | injection Hmiss as <-;
      now rewrite (bind_raised _ _ _ _ _ (subscript_none _ _ w Htok))].
  destruct (credentials !! "access_token_secret") as [sec | ] eqn:Hsec;
    [discriminate | ].
  injection Hmiss as <-.
  now rewrite (bind_raised _ _ _ _ _ (subscript_none _ _ w Hsec)).
Qed.

Lemma keeps_setup_request (self : t) (method path : string) (kwargs : Kwargs) :
  keeps_store (request self method path kwargs).
Proof. unfold request. destruct (kw_auth kwargs); repeat keeps_step. Qed.

(** X5. The setup client changes no local state: whatever the inputs,
    and whether they end in a response or an exception, its methods
    leave the cache and the stored identity as they were. *)
Theorem setup_client_keeps_store (self : t) (request_token credentials : gmap string string)
    (verifier : option string) (external_id secret method path : string)
    (kwargs : Kwargs) :
  keeps_store (get_request_token self)
  /\ keeps_store (get_authorize_url self request_token)
  /\ keeps_store (get_access_token self request_token verifier)
  /\ keeps_store (create_issue_webhook self external_id secret credentials)
  /\ keeps_store (request self method path kwargs).
Proof.
  pose proof keeps_setup_request as Hreq.
  split; [ | split; [ | split; [ | split]]].
  - unfold get_request_token, post. repeat keeps_step; apply Hreq.
  - unfold get_authorize_url. repeat keeps_step.
  - unfold get_access_token, post. destruct (negb (truth verifier));
      repeat keeps_step; apply Hreq.
  - unfold create_issue_webhook, post. repeat keeps_step; apply Hreq.
  - apply Hreq.
Qed.

End SetupClientMore.

(** ** The authenticated client, further *)

Section ClientMore.
Context `{HostSystem}.
Import JiraServerClient.

Lemma client_request_key_error (self : t) (method path : string)
    (kwargs : Kwargs) (key : string) (w : World) :
  kw_auth kwargs = None ->
  first_missing credential_keys (identity_data w) = Some key ->
  request self method path kwargs w = (Raised (KeyError key), w).
Proof.
  intros Hk Hmiss. unfold request. rewrite Hk, bind_read_identity.
  cbn [first_missing credential_keys] in Hmiss.
  destruct (identity_data w !! "consumer_key") as [ck | ] eqn:Hck;
    [rewrite (bind_eq _ _ _ _ _ (subscript_some _ _ _ w Hck))
    | injection Hmiss as <-;
      now rewrite (bind_raised _ _ _ _ _ (subscript_none _ _ w Hck))].
  destruct (identity_data w !! "private_key") as [pk | ] eqn:Hpk;
    [rewrite (bind_eq _ _ _ _ _ (subscript_some _ _ _ w Hpk))
    | injection Hmiss as <-;
      now rewrite (bind_raised _ _ _ _ _ (subscript_none _ _ w Hpk))].
  destruct (identity_data w !! "access_token") as [tok | ] eqn:Htok;
    [rewrite (bind_eq _ _ _ _ _ (subscript_some _ _ _ w Htok))
    | injection Hmiss as <-;
      now rewrite (bind_raised _ _ _ _ _ (subscript_none _ _ w Htok))].
  destruct (identity_data w !! "access_token_secret") as [sec | ] eqn:Hsec;
    [discriminate | ].
  injection Hmiss as <-.
  now rewrite (bind_raised _ _ _ _ _ (subscript_none _ _ w Hsec)).
Qed.

(** X6. A request made with no [auth] keyword while the identity lacks
    one of the four credentials raises the KeyError of the first one
    missing, and the world stays as it was: nothing is sent. *)
Theorem client_request_missing_credential (self : t) (method path : string)
    (kwargs : Kwargs) (key : string) (w : World) :
  kw_auth kwargs = None ->
  first_missing credential_keys (identity_data w) = Some key ->
  request self method path kwargs w = (Raised (KeyError key), w).
Proof. apply client_request_key_error. Qed.

(** X7. A request that comes with an [auth] keyword does not read the
    identity: whatever the identity holds, even nothing, the request
    reaches the HTTP layer with its keyword arguments unchanged and no
    signer is built. *)
Theorem client_request_presigned (self : t) (method path : string) (kwargs : Kwargs)
    (a : Auth) (w : World) :
  kw_auth kwargs = Some a ->
  let req := {| req_method := method; req_path := path; req_kwargs := kwargs |} in
  request self method path kwargs w
  = (outcome_of (transport (trace w) req), logged [EvRequest req] w)
  /\ forall data : gmap string string,
       fst (request self method path kwargs (rotate_identity data w))
       = fst (request self method path kwargs w).
Proof.
  intros Hk req. unfold request. rewrite Hk. split; reflexivity.
Qed.

(** Either a credential is missing and the request stops there, or the
    four are present and the request is sent. *)
Lemma client_request_cases (self : t) (method path : string) (kwargs : Kwargs)
    (w : World) :
  kw_auth kwargs = None ->
  (exists key, request self method path kwargs w = (Raised (KeyError key), w))
  \/ (exists auth : OAuth1,
        let req := {| req_method := method; req_path := path;
                      req_kwargs := set_auth (Signer auth) kwargs |} in
        request self method path kwargs w
        = (outcome_of (transport (trace w ++ [EvOAuth1 auth]) req),
           logged [EvOAuth1 auth; EvRequest req] w)).
Proof.
  intros Hk.
  destruct (first_missing credential_keys (identity_data w)) as [key | ] eqn:Hmiss.
  - left. exists key. now apply client_request_key_error.
  - right. cbn [first_missing credential_keys] in Hmiss.
    destruct (identity_data w !! "consumer_key") as [ck | ] eqn:Hck; [ | discriminate].
    destruct (identity_data w !! "private_key") as [pk | ] eqn:Hpk; [ | discriminate].
    destruct (identity_data w !! "access_token") as [tok | ] eqn:Htok; [ | discriminate].
    destruct (identity_data w !! "access_token_secret") as [sec | ] eqn:Hsec;
      [ | discriminate].
    eexists. cbv zeta.
    exact (client_request_unsigned self method path kwargs ck pk tok sec w
             Hk Hck Hpk Htok Hsec).
Qed.

Lemma keeps_client_request (self : t) (method path : string) (kwargs : Kwargs) :
  keeps_store (request self method path kwargs).
Proof. unfold request. destruct (kw_auth kwargs); repeat keeps_step. Qed.

Lemma get_cached_hit_eq (self : t) (full_url : string) (value : Response) (ttl : nat)
    (w : World) :
  cache w !! cache_key self full_url = Some (value, ttl) -> truthy value = true ->
  get_cached self full_url w = (Returned value, w).
Proof.
  intros Hc Ht. unfold get_cached, bind, cache_get. rewrite Hc.
  cbn [fmap option_fmap option_map fst]. now rewrite Ht.
Qed.

Lemma get_cached_fetch_eq (self : t) (full_url : string) (ck pk tok sec : string)
    (w : World) :
  (cache w !! cache_key self full_url = None
   \/ exists (value : Response) (ttl : nat),
        cache w !! cache_key self full_url = Some (value, ttl) /\ truthy value = false) ->
  identity_data w !! "consumer_key" = Some ck ->
  identity_data w !! "private_key" = Some pk ->
  identity_data w !! "access_token" = Some tok ->
  identity_data w !! "access_token_secret" = Some sec ->
  let auth := {| client_key := ck;
                 resource_owner_key := Some tok; resource_owner_secret := Some sec;
                 verifier := None; rsa_key := Some pk;
                 signature_method := "RSA-SHA1"; signature_type := "auth_header" |} in
  let req := {| req_method := "GET"; req_path := full_url;
                req_kwargs := set_auth (Signer auth) no_kwargs |} in
  get_cached self full_url w
  = match transport (trace w ++ [EvOAuth1 auth]) req with
    | inr fetched =>
        (Returned fetched,
         {| cache := <[cache_key self full_url := (fetched, 60)]> (cache w);
            identity_data := identity_data w;
            trace := trace w ++ [EvOAuth1 auth; EvRequest req] |})
    | inl e => (Raised e, logged [EvOAuth1 auth; EvRequest req] w)
    end.
Proof.
  intros Hmiss Hck Hpk Htok Hsec auth req.
  pose proof (client_request_unsigned self "GET" full_url no_kwargs ck pk tok sec w
                eq_refl Hck Hpk Htok Hsec) as E. cbv zeta in E. fold auth req in E.
  unfold get_cached. unfold bind at 1. unfold cache_get.
  assert (Hfetch :
    (fetched <- get self full_url no_kwargs ;;
     cache_set (cache_key self full_url) fetched 60 ;;; ret fetched)%py w
    = match transport (trace w ++ [EvOAuth1 auth]) req with
      | inr fetched =>
          (Returned fetched,
           {| cache := <[cache_key self full_url := (fetched, 60)]> (cache w);
              identity_data := identity_data w;
              trace := trace w ++ [EvOAuth1 auth; EvRequest req] |})
      | inl e => (Raised e, logged [EvOAuth1 auth; EvRequest req] w)
      end).
  { unfold bind at 1. unfold get. rewrite E.
    destruct (transport (trace w ++ [EvOAuth1 auth]) req); reflexivity. }
  destruct Hmiss as [Hc | (value & ttl & Hc & Ht)]; rewrite Hc;
    cbn [fmap option_fmap option_map fst]; [ | rewrite Ht]; exact Hfetch.
Qed.

(** X8. Two calls in a row: when the first [get_cached] of a URL misses
    and the response is true, the second call returns that response from
    the cache without a network call and without reading the identity,
    whatever the external store has done to the identity in between. *)
Theorem get_cached_second_call_hits (self : t) (full_url : string)
    (ck pk tok sec : string) (fetched : Response) (data : gmap string string)
    (w : World) :
  cache w !! cache_key self full_url = None ->
  identity_data w !! "consumer_key" = Some ck ->
  identity_data w !! "private_key" = Some pk ->
  identity_data w !! "access_token" = Some tok ->
  identity_data w !! "access_token_secret" = Some sec ->
  let auth := {| client_key := ck;
                 resource_owner_key := Some tok; resource_owner_secret := Some sec;
                 verifier := None; rsa_key := Some pk;
                 signature_method := "RSA-SHA1"; signature_type := "auth_header" |} in
  let req := {| req_method := "GET"; req_path := full_url;
                req_kwargs := set_auth (Signer auth) no_kwargs |} in
  transport (trace w ++ [EvOAuth1 auth]) req = inr fetched ->
  truthy fetched = true ->
  let w1 := rotate_identity data (snd (get_cached self full_url w)) in
  get_cached self full_url w1 = (Returned fetched, w1)
  /\ requests (trace w1) = requests (trace w) ++ [req].
Proof.
  intros Hmiss Hck Hpk Htok Hsec auth req Hresp Htrue w1.
  pose proof (get_cached_fetch_eq self full_url ck pk tok sec w (or_introl Hmiss)
                Hck Hpk Htok Hsec) as E.
  cbv zeta in E. fold auth req in E. rewrite Hresp in E.
  assert (Ew1 : w1 = {| cache := <[cache_key self full_url := (fetched, 60)]> (cache w);
                        identity_data := data;
                        trace := trace w ++ [EvOAuth1 auth; EvRequest req] |}).
  { unfold w1. rewrite E. reflexivity. }
  split.
  - apply (get_cached_hit_eq self full_url fetched 60 w1); [ | exact Htrue].
    rewrite Ew1. cbn [cache]. apply lookup_insert_eq.
  - rewrite Ew1. cbn [trace]. unfold requests. rewrite flat_map_app. reflexivity.
Qed.

(** X9. A response that is false is stored but never served: when the
    first call misses and fetches a false response, the second call finds
    it in the cache, takes it for a miss and sends the GET again. *)
Theorem get_cached_false_response_refetched (self : t) (full_url : string)
    (ck pk tok sec : string) (fetched : Response) (w : World) :
  cache w !! cache_key self full_url = None ->
  identity_data w !! "consumer_key" = Some ck ->
  identity_data w !! "private_key" = Some pk ->
  identity_data w !! "access_token" = Some tok ->
  identity_data w !! "access_token_secret" = Some sec ->
  let auth := {| client_key := ck;
                 resource_owner_key := Some tok; resource_owner_secret := Some sec;
                 verifier := None; rsa_key := Some pk;
                 signature_method := "RSA-SHA1"; signature_type := "auth_header" |} in
  let req := {| req_method := "GET"; req_path := full_url;
                req_kwargs := set_auth (Signer auth) no_kwargs |} in
  transport (trace w ++ [EvOAuth1 auth]) req = inr fetched ->
  truthy fetched = false ->
  let w1 := snd (get_cached self full_url w) in
  cache w1 !! cache_key self full_url = Some (fetched, 60)
  /\ requests (trace (snd (get_cached self full_url w1)))
     = requests (trace w) ++ [req; req].
Proof.
  intros Hmiss Hck Hpk Htok Hsec auth req Hresp Hfalse w1.
  pose proof (get_cached_fetch_eq self full_url ck pk tok sec w (or_introl Hmiss)
                Hck Hpk Htok Hsec) as E.
  cbv zeta in E. fold auth req in E. rewrite Hresp in E.
  assert (Ew1 : w1 = {| cache := <[cache_key self full_url := (fetched, 60)]> (cache w);
                        identity_data := identity_data w;
                        trace := trace w ++ [EvOAuth1 auth; EvRequest req] |}).
  { unfold w1. rewrite E. reflexivity. }
  assert (Hc1 : cache w1 !! cache_key self full_url = Some (fetched, 60)).
  { rewrite Ew1. cbn [cache]. apply lookup_insert_eq. }
  split; [exact Hc1 | ].
  assert (Hid : identity_data w1 = identity_data w) by (rewrite Ew1; reflexivity).
  pose proof (get_cached_fetch_eq self full_url ck pk tok sec w1
                (or_intror (ex_intro _ fetched (ex_intro _ 60 (conj Hc1 Hfalse))))) as E2.
  rewrite Hid in E2. specialize (E2 Hck Hpk Htok Hsec).
  cbv zeta in E2. fold auth req in E2. rewrite E2.
  assert (Et : trace w1 = trace w ++ [EvOAuth1 auth; EvRequest req])
    by (rewrite Ew1; reflexivity).
  destruct (transport (trace w1 ++ [EvOAuth1 auth]) req);
    cbn [snd trace logged]; rewrite Et; unfold requests;
    rewrite !flat_map_app; cbn [flat_map app]; now rewrite <- app_assoc.
Qed.

End ClientMore.

(** ** The cache and the endpoints *)

Section EndpointFacts.
Context `{HostSystem}.
Import JiraServerClient.

Lemma keeps_get (self : t) (path : string) (kwargs : Kwargs) :
  keeps_store (get self path kwargs).
Proof. unfold get. apply keeps_client_request. Qed.

Lemma get_cached_unfold (self : t) (full_url : string) (w : World) :
  get_cached self full_url w
  = let fetch := (fetched <- get self full_url no_kwargs ;;
                  cache_set (cache_key self full_url) fetched 60 ;;;
                  ret fetched)%py in
    match fst <$> cache w !! cache_key self full_url with
    | Some value => if truthy value then (Returned value, w) else fetch w
    | None => fetch w
    end.
Proof.
  unfold get_cached, bind at 1, cache_get. cbv zeta.
  destruct (fst <$> cache w !! cache_key self full_url) as [value | ]; [ | reflexivity].
  destruct (truthy value); reflexivity.
Qed.

(** X10. [get_cached] writes to the cache under its own key only: every
    other entry, and the identity, are after the call what they were
    before it, however the call ends. *)
Theorem get_cached_touches_one_key (self : t) (full_url other : string) (w : World) :
  other <> cache_key self full_url ->
  cache (snd (get_cached self full_url w)) !! other = cache w !! other
  /\ identity_data (snd (get_cached self full_url w)) = identity_data w.
Proof.
  intros Hne.
  assert (Hfetch : forall w0 : World,
    let after := snd ((fetched <- get self full_url no_kwargs ;;
                       cache_set (cache_key self full_url) fetched 60 ;;;
                       ret fetched)%py w0) in
    cache after !! other = cache w0 !! other /\ identity_data after = identity_data w0).
  { intros w0. cbv zeta. unfold bind.
    destruct (keeps_get self full_url no_kwargs w0) as [Hc Hi].
    destruct (get self full_url no_kwargs w0) as [[e | fetched] w1]; cbn [snd] in Hc, Hi.
    - cbn [snd]. now rewrite Hc, Hi.
    - cbn. rewrite lookup_insert_ne by congruence. now rewrite Hc, Hi. }
  rewrite get_cached_unfold. cbv zeta.
  destruct (fst <$> cache w !! cache_key self full_url) as [value | ].
  - destruct (truthy value); [split; reflexivity | apply Hfetch].
  - apply Hfetch.
Qed.

(** X11. One call of [get_cached] never sends more than one request,
    and what it sends is a GET of the URL it was given: there is no
    retry and no other endpoint is touched, however the call ends. *)
Theorem get_cached_at_most_one_get (self : t) (full_url : string) (w : World) :
  exists sent : list Request,
    requests (trace (snd (get_cached self full_url w))) = requests (trace w) ++ sent
    /\ length sent <= 1
    /\ Forall (fun r => req_method r = "GET" /\ req_path r = full_url) sent.
Proof.
  assert (Hfetch : exists sent : list Request,
    requests (trace (snd ((fetched <- get self full_url no_kwargs ;;
                           cache_set (cache_key self full_url) fetched 60 ;;;
                           ret fetched)%py w)))
    = requests (trace w) ++ sent
    /\ length sent <= 1
    /\ Forall (fun r => req_method r = "GET" /\ req_path r = full_url) sent).
  { unfold bind at 1. unfold get.
    destruct (client_request_cases self "GET" full_url no_kwargs w eq_refl)
      as [(key & E) | (auth & E)]; cbv zeta in E; rewrite E.
    - exists []. cbn [snd]. rewrite app_nil_r. repeat split; [cbn; lia | constructor].
    - eexists [_].
      destruct (transport (trace w ++ [EvOAuth1 auth]) _);
        (split; [cbn [outcome_of snd]; cbn; unfold requests; rewrite flat_map_app;
                 reflexivity | ]);
        (split; [cbn; lia | repeat constructor]). }
  rewrite get_cached_unfold. cbv zeta.
  destruct (fst <$> cache w !! cache_key self full_url) as [value | ]; [ | exact Hfetch].
  destruct (truthy value); [ | exact Hfetch].
  exists []. cbn [snd]. rewrite app_nil_r. repeat split; [cbn; lia | constructor].
Qed.

(** X12. The calls that are not cached leave the cache alone:
    [get_create_meta], [search_issues], [get_issue], a plain [request]
    and the two stubs never write to the cache or to the identity,
    whatever their arguments and however they end. *)
Theorem uncached_methods_keep_store (self : t) (project : option string)
    (query issue_id method path : string) (kwargs : Kwargs) :
  keeps_store (get_create_meta self project)
  /\ keeps_store (search_issues self query)
  /\ keeps_store (get_issue self issue_id)
  /\ keeps_store (request self method path kwargs)
  /\ keeps_store (get_valid_statuses self)
  /\ keeps_store (get_projects_list self).
Proof.
  split; [ | split; [ | split; [ | split; [ | split]]]].
  - unfold get_create_meta. apply keeps_get.
  - unfold search_issues. apply keeps_get.
  - unfold get_issue. apply keeps_get.
  - apply keeps_client_request.
  - apply keeps_ret.
  - apply keeps_ret.
Qed.

(** With the credentials in the identity, a GET made with no [auth]
    adds one request to those sent, signed with them. *)
Lemma get_sends (self : t) (path : string) (kwargs : Kwargs) (ck pk tok sec : string)
    (w : World) :
  kw_auth kwargs = None ->
  identity_data w !! "consumer_key" = Some ck ->
  identity_data w !! "private_key" = Some pk ->
  identity_data w !! "access_token" = Some tok ->
  identity_data w !! "access_token_secret" = Some sec ->
  let auth := {| client_key := ck;
                 resource_owner_key := Some tok; resource_owner_secret := Some sec;
                 verifier := None; rsa_key := Some pk;
                 signature_method := "RSA-SHA1"; signature_type := "auth_header" |} in
  let req := {| req_method := "GET"; req_path := path;
                req_kwargs := set_auth (Signer auth) kwargs |} in
  get self path kwargs w
  = (outcome_of (transport (trace w ++ [EvOAuth1 auth]) req),
     logged [EvOAuth1 auth; EvRequest req] w)
  /\ requests (trace (snd (get self path kwargs w))) = requests (trace w) ++ [req].
Proof.
  intros Hk Hck Hpk Htok Hsec auth req.
  pose proof (client_request_unsigned self "GET" path kwargs ck pk tok sec w
                Hk Hck Hpk Htok Hsec) as E. cbv zeta in E. fold auth req in E.
  unfold get. rewrite E. split; [reflexivity | ].
  cbn [snd trace logged]. unfold requests. now rewrite flat_map_app.
Qed.

(** X13. [get_create_meta] sends one GET of the createmeta URL whose
    parameters always ask to expand projects.issuetypes.fields, and carry
    projectIds exactly when a project is given; the answer is the
    transport's, response or error. *)
Theorem get_create_meta_request (self : t) (project : option string)
    (ck pk tok sec : string) (w : World) :
  identity_data w !! "consumer_key" = Some ck ->
  identity_data w !! "private_key" = Some pk ->
  identity_data w !! "access_token" = Some tok ->
  identity_data w !! "access_token_secret" = Some sec ->
  let auth := {| client_key := ck;
                 resource_owner_key := Some tok; resource_owner_secret := Some sec;
                 verifier := None; rsa_key := Some pk;
                 signature_method := "RSA-SHA1"; signature_type := "auth_header" |} in
  let params := ("expand", "projects.issuetypes.fields")
                :: match project with
                   | Some p => [("projectIds", p)]
                   | None => []
                   end in
  let req := {| req_method := "GET"; req_path := "/rest/api/2/issue/createmeta";
                req_kwargs := {| kw_auth := Some (Signer auth); kw_data := None;
                                 kw_params := Some params; kw_allow_text := None |} |} in
  fst (get_create_meta self project w)
  = outcome_of (transport (trace w ++ [EvOAuth1 auth]) req)
  /\ requests (trace (snd (get_create_meta self project w))) = requests (trace w) ++ [req].
Proof.
  intros Hck Hpk Htok Hsec auth params req. unfold get_create_meta.
  match goal with
  | |- context [get self META_URL ?kw] =>
      destruct (get_sends self META_URL kw ck pk tok sec w eq_refl Hck Hpk Htok Hsec)
        as [E Er]
  end.
  cbv zeta in E, Er. rewrite Er, E. cbn [fst].
  destruct project; split; reflexivity.
Qed.

End EndpointFacts.

Section EndpointFacts2.
Context `{HostSystem}.
Import JiraServerClient.

Lemma format_versions_url (project : string) :
  PyStr.percent_format VERSIONS_URL project
  = "/rest/api/2/project/" +:+ project +:+ "/versions".
Proof. reflexivity. Qed.


(** X14. [get_versions] goes through the cache with the versions URL of
    the project: a true cached value under that URL's key is returned
    with nothing sent; on a miss one GET of
    /rest/api/2/project/<project>/versions is sent, and a response is
    stored under the key for 60 seconds. *)
Theorem get_versions_request (self : t) (project : string) (w : World) :
  let url := "/rest/api/2/project/" +:+ project +:+ "/versions" in
  (forall (value : Response) (ttl : nat),
     cache w !! cache_key self url = Some (value, ttl) -> truthy value = true ->
     get_versions self project w = (Returned value, w))
  /\ (forall ck pk tok sec : string,
        cache w !! cache_key self url = None ->
        identity_data w !! "consumer_key" = Some ck ->
        identity_data w !! "private_key" = Some pk ->
        identity_data w !! "access_token" = Some tok ->
        identity_data w !! "access_token_secret" = Some sec ->
        let auth := {| client_key := ck;
                       resource_owner_key := Some tok; resource_owner_secret := Some sec;
                       verifier := None; rsa_key := Some pk;
                       signature_method := "RSA-SHA1";
                       signature_type := "auth_header" |} in
        let req := {| req_method := "GET"; req_path := url;
                      req_kwargs := set_auth (Signer auth) no_kwargs |} in
        requests (trace (snd (get_versions self project w))) = requests (trace w) ++ [req]
        /\ forall fetched : Response,
             transport (trace w ++ [EvOAuth1 auth]) req = inr fetched ->
             fst (get_versions self project w) = Returned fetched
             /\ cache (snd (get_versions self project w)) !! cache_key self url
                = Some (fetched, 60)).
Proof.
  intros url. split.
  - intros value ttl Hc Ht. unfold get_versions. rewrite format_versions_url.
    now apply get_cached_hit_eq with (ttl := ttl).
  - intros ck pk tok sec Hmiss Hck Hpk Htok Hsec auth req.
    unfold get_versions. rewrite format_versions_url. fold url.
    pose proof (get_cached_fetch_eq self url ck pk tok sec w (or_introl Hmiss)
                  Hck Hpk Htok Hsec) as E.
    cbv zeta in E. fold auth req in E. rewrite E. split.
    + destruct (transport (trace w ++ [EvOAuth1 auth]) req);
        cbn [snd trace logged]; unfold requests; now rewrite flat_map_app.
    + intros fetched Hresp. rewrite Hresp. cbn [fst snd cache].
      split; [reflexivity | apply lookup_insert_eq].
Qed.


(** X16. [search_issues] sends one GET of the search URL whose only
    parameter is the JQL: the id clause when the search for the issue-id
    pattern succeeds, the text clause otherwise, with the double quotes
    of the query escaped in both. *)
Theorem search_issues_sends_jql (self : t) (query : string) (ck pk tok sec : string)
    (w : World) :
  identity_data w !! "consumer_key" = Some ck ->
  identity_data w !! "private_key" = Some pk ->
  identity_data w !! "access_token" = Some tok ->
  identity_data w !! "access_token_secret" = Some sec ->
  let auth := {| client_key := ck;
                 resource_owner_key := Some tok; resource_owner_secret := Some sec;
                 verifier := None; rsa_key := Some pk;
                 signature_method := "RSA-SHA1"; signature_type := "auth_header" |} in
  let clause :=
    if Re.search issue_id_pattern query
    then "id=" +:+ PyStr.dquote +:+ escape query +:+ PyStr.dquote
    else "text ~ " +:+ PyStr.dquote +:+ escape query +:+ PyStr.dquote in
  let req := {| req_method := "GET"; req_path := "/rest/api/2/search/";
                req_kwargs := {| kw_auth := Some (Signer auth); kw_data := None;
                                 kw_params := Some [("jql", clause)];
                                 kw_allow_text := None |} |} in
  fst (search_issues self query w)
  = outcome_of (transport (trace w ++ [EvOAuth1 auth]) req)
  /\ requests (trace (snd (search_issues self query w))) = requests (trace w) ++ [req].
Proof.
  intros Hck Hpk Htok Hsec auth clause req. unfold search_issues.
  match goal with
  | |- context [get self SEARCH_URL ?kw] =>
      destruct (get_sends self SEARCH_URL kw ck pk tok sec w eq_refl Hck Hpk Htok Hsec)
        as [E Er]
  end.
  cbv zeta in E, Er. rewrite Er, E. cbn [fst].
  unfold req, clause. rewrite <- jql_by_cases. split; reflexivity.
Qed.

Lemma append_assoc3 (a b c : string) : (a +:+ b) +:+ c = a +:+ (b +:+ c).
Proof.
  induction a as [|x a IH]; [reflexivity | ].
  change (String x ((a +:+ b) +:+ c) = String x (a +:+ (b +:+ c))). now f_equal.
Qed.

(** X19. The cache key is made of the URL and the base URL joined by a
    colon, so it does not tell the two apart: moving a piece from the end
    of the URL to the front of the base URL, across the colon, gives the
    same key, for any hash. *)
Theorem cache_key_joins_url_and_base (verify : bool) (url piece base : string) :
  cache_key (mk base verify) (url +:+ ":" +:+ piece)
  = cache_key (mk (piece +:+ ":" +:+ base) verify) url.
Proof.
  unfold cache_key, md5. cbn [PyStr.join base_url]. do 2 f_equal.
  now rewrite append_assoc3.
Qed.

End EndpointFacts2.

(** ** Escaping, and what counts as an issue id *)

Section QueryFacts.
Import Re JiraServerClient.

Lemma escape_cons (c : ascii) (q : string) :
  escape (String c q)
  = if Ascii.eqb c PyStr.DQUOTE
    then String PyStr.BACKSLASH (String PyStr.DQUOTE (escape q))
    else String c (escape q).
Proof. unfold escape. cbn [PyStr.replace]. destruct (Ascii.eqb c PyStr.DQUOTE); reflexivity. Qed.

Lemma escape_escaped_from (q : string) (after_backslash : bool) :
  quotes_escaped_from after_backslash (escape q) = true.
Proof.
  revert after_backslash. induction q as [|c q IH]; intros b; [reflexivity | ].
  rewrite escape_cons. destruct (Ascii.eqb c PyStr.DQUOTE) eqn:Ec.
  - change (quotes_escaped_from b (String PyStr.BACKSLASH (String PyStr.DQUOTE (escape q))))
      with ((true || b) && (true && quotes_escaped_from false (escape q))).
    cbn [orb andb]. apply IH.
  - cbn [quotes_escaped_from]. rewrite Ec. cbn [negb orb andb]. apply IH.
Qed.

(** The escaped query never starts with a double quote. *)
Lemma escape_head (q : string) :
  match escape q with
  | "" => q = ""
  | String d _ => Ascii.eqb d PyStr.DQUOTE = false
  end.
Proof.
  destruct q as [|c q]; [reflexivity | ].
  rewrite escape_cons. destruct (Ascii.eqb c PyStr.DQUOTE) eqn:Ec; [reflexivity | exact Ec].
Qed.

Lemma unescape_escape (q : string) : unescape (escape q) = q.
Proof.
  induction q as [|c q IH]; [reflexivity | ].
  rewrite escape_cons. destruct (Ascii.eqb c PyStr.DQUOTE) eqn:Ec.
  - apply Ascii.eqb_eq in Ec. subst c.
    change (String PyStr.DQUOTE (unescape (escape q)) = String PyStr.DQUOTE q).
    now rewrite IH.
  - cbn [unescape]. destruct (Ascii.eqb c PyStr.BACKSLASH); [ | now rewrite IH].
    pose proof (escape_head q) as Hh. rewrite <- IH at 2.
    destruct (escape q) as [|d rest] eqn:Eq; [reflexivity | ].
    rewrite Hh. reflexivity.
Qed.

(** X17. Escaping puts a backslash before each double quote of the
    query and changes nothing else: in the escaped query every double
    quote stands right after a backslash, the query comes back when the
    backslash before each double quote is dropped, and the escaped query
    is longer than the query by the number of its double quotes.
    Backslashes of the query are not escaped. *)
Theorem escape_escapes_every_quote (query : string) :
  quotes_escaped (escape query) = true
  /\ unescape (escape query) = query
  /\ String.length (escape query) = String.length query + count PyStr.DQUOTE query
  /\ (forall rest : string,
        escape (String PyStr.BACKSLASH rest) = String PyStr.BACKSLASH (escape rest)).
Proof.
  split; [apply escape_escaped_from | ]. split; [apply unescape_escape | ]. split.
  - induction query as [|c q IH]; [reflexivity | ].
    rewrite escape_cons. cbn [count String.length].
    destruct (Ascii.eqb c PyStr.DQUOTE); cbn [String.length]; rewrite IH; lia.
  - intros rest. now rewrite escape_cons.
Qed.

(** *** The shape of a match *)

Section Shape.
Variable final : string -> bool.
Variable rest : list Item.
Variable shape : string -> Prop.
Hypothesis rest_shape : forall (b : bool) (s : string),
  match_here final rest b s = true <-> shape s.

Lemma one_shape (cs : CharSet) (b : bool) (s : string) :
  match_here final (One cs :: rest) b s = true
  <-> exists (c : ascii) (t : string), s = String c t /\ mem cs c = true /\ shape t.
Proof.
  destruct s as [|c s]; simpl.
  - split; [discriminate | intros (c & t & E & _); discriminate].
  - rewrite andb_true_iff, rest_shape. split.
    + intros [Hc Hs]. now exists c, s.
    + intros (c' & t & E & Hc & Hs). injection E as -> ->. now split.
Qed.

Lemma plus_shape (cs : CharSet) (b : bool) (s : string) :
  match_here final (Plus cs :: rest) b s = true
  <-> exists a t : string,
        a <> "" /\ all_in cs a = true /\ s = a +:+ t /\ shape t.
Proof.
  split.
  - revert b. induction s as [|c s IH]; intros b; [discriminate | ].
    rewrite match_here_plus, andb_true_iff, orb_true_iff.
    intros [Hc [Hs | Hs]].
    + destruct (IH false Hs) as (a & t & Ha & Hall & -> & Ht).
      exists (String c a), t. repeat split; [discriminate | | exact Ht].
      cbn [all_in]. now rewrite Hc.
    + apply rest_shape in Hs. exists (String c ""), s.
      repeat split; [discriminate | | exact Hs]. cbn [all_in]. now rewrite Hc.
  - intros (a & t & Ha & Hall & -> & Ht). revert b.
    induction a as [|c a IH]; intros b; [contradiction | ].
    cbn [all_in] in Hall. apply andb_true_iff in Hall as [Hc Hall].
    change (String c a +:+ t) with (String c (a +:+ t)).
    rewrite match_here_plus, Hc. cbn [andb]. apply orb_true_iff.
    destruct a as [|d a].
    + right. apply rest_shape. exact Ht.
    + left. apply IH; [discriminate | exact Hall].
Qed.

End Shape.

Lemma eol_at_end_shape (b : bool) (s : string) :
  match_here at_end [Eol] b s = true <-> s = "".
Proof.
  simpl. rewrite andb_true_iff, at_end_true. split; [tauto | ].
  intros ->. now split.
Qed.

(** The queries that match the issue-id pattern whole are a key of
    letters, a dash and a number of digits. *)
Lemma issue_id_fullmatch_shape (query : string) :
  fullmatch issue_id_pattern query = true
  <-> exists key number : string,
        key <> "" /\ all_in (Ranges [("A", "Z"); ("a", "z")]%char) key = true
        /\ number <> "" /\ all_in Digit number = true
        /\ query = key +:+ "-" +:+ number.
Proof.
  unfold issue_id_pattern, fullmatch. rewrite match_here_bol.
  rewrite (plus_shape at_end _
             (fun s => exists number : string,
                  number <> "" /\ all_in Digit number = true /\ s = "-" +:+ number)).
  - split.
    + intros (key & t & Hk & Hall & -> & number & Hn & Hd & ->).
      now exists key, number.
    + intros (key & number & Hk & Hall & Hn & Hd & ->).
      exists key, ("-" +:+ number). repeat split; try assumption. now exists number.
  - intros b s.
    rewrite (one_shape at_end _
               (fun s => exists number : string,
                    number <> "" /\ all_in Digit number = true /\ s = number)).
    + split.
      * intros (c & t & -> & Hc & number & Hn & Hd & ->).
        simpl in Hc. apply Ascii.eqb_eq in Hc. subst c. now exists number.
      * intros (number & Hn & Hd & ->). exists "-"%char, number.
        split; [reflexivity | ]. split; [reflexivity | ]. now exists number.
    + clear b s. intros b s.
      rewrite (plus_shape at_end _ (fun s => s = "") eol_at_end_shape). split.
      * intros (a & t & Ha & Hall & -> & ->). exists a.
        now rewrite append_empty_r.
      * intros (number & Hn & Hd & ->). exists number, "".
        now rewrite append_empty_r.
Qed.

(** X18. What [search_issues] takes for an issue id: exactly the
    queries made of one or more ASCII letters, a dash and one or more
    digits, with or without one newline at the end. *)
Theorem issue_id_search_shape (query : string) :
  search issue_id_pattern query = true
  <-> exists key number : string,
        key <> "" /\ all_in (Ranges [("A", "Z"); ("a", "z")]%char) key = true
        /\ number <> "" /\ all_in Digit number = true
        /\ (query = key +:+ "-" +:+ number
            \/ query = (key +:+ "-" +:+ number) +:+ PyStr.newline).
Proof.
  rewrite issue_id_search_iff. split.
  - intros [Hf | (q0 & -> & Hf)]; apply issue_id_fullmatch_shape in Hf
      as (key & number & Hk & Hall & Hn & Hd & ->); exists key, number; auto 10.
  - intros (key & number & Hk & Hall & Hn & Hd & [-> | ->]).
    + left. apply issue_id_fullmatch_shape. now exists key, number.
    + right. eexists. split; [reflexivity | ].
      apply issue_id_fullmatch_shape. now exists key, number.
Qed.

End QueryFacts.

(** ** The further properties at work on the small host systems *)

Lemma get_authorize_url_missing_token_witness :
  JiraServerSetupClient.get_authorize_url (H := Demo.host) Demo.setup ∅ Demo.world
  = (Raised (KeyError "oauth_token"), Demo.world).
Proof.
  apply (get_authorize_url_missing_token (H := Demo.host) Demo.setup ∅ Demo.world).
  reflexivity.
Defined.

Lemma get_access_token_missing_fields_witness :
  JiraServerSetupClient.get_access_token (H := Demo.host) Demo.setup
    {[ "oauth_token" := "abc" ]} (Some "v") Demo.world
  = (Raised (KeyError "oauth_token_secret"), Demo.world).
Proof.
  apply (get_access_token_missing_fields (H := Demo.host) Demo.setup
           {[ "oauth_token" := "abc" ]} "v" "oauth_token_secret" Demo.world).
  - discriminate.
  - reflexivity.
Defined.

Lemma create_issue_webhook_missing_credential_witness :
  JiraServerSetupClient.create_issue_webhook (H := Demo.host) Demo.setup "jira:1" "s3cret"
    (dict [("consumer_key", "ck"); ("private_key", "pk")]) Demo.world
  = (Raised (KeyError "access_token"), Demo.world).
Proof.
  apply (create_issue_webhook_missing_credential (H := Demo.host) Demo.setup
           "jira:1" "s3cret" (dict [("consumer_key", "ck"); ("private_key", "pk")])
           "access_token" Demo.world).
  reflexivity.
Defined.

Lemma client_request_missing_credential_witness :
  JiraServerClient.request (H := Demo.host) Demo.client "GET" "/rest/api/2/priority"
    no_kwargs (rotate_identity ∅ Demo.world)
  = (Raised (KeyError "consumer_key"), rotate_identity ∅ Demo.world).
Proof.
  apply (client_request_missing_credential (H := Demo.host) Demo.client
           "GET" "/rest/api/2/priority" no_kwargs "consumer_key"
           (rotate_identity ∅ Demo.world)); reflexivity.
Defined.

Lemma client_request_presigned_witness :
  requests (trace (snd (JiraServerClient.request (H := Demo.host) Demo.client
                          "GET" "/rest/api/2/priority" (set_auth PyNone no_kwargs)
                          (rotate_identity ∅ Demo.world))))
  = [{| req_method := "GET"; req_path := "/rest/api/2/priority";
        req_kwargs := set_auth PyNone no_kwargs |}].
Proof.
  rewrite (proj1 (client_request_presigned (H := Demo.host) Demo.client
                    "GET" "/rest/api/2/priority" (set_auth PyNone no_kwargs) PyNone
                    (rotate_identity ∅ Demo.world) eq_refl)).
  reflexivity.
Defined.

Lemma get_cached_second_call_hits_witness :
  let w1 := rotate_identity ∅
              (snd (JiraServerClient.get_cached (H := Demo.host) Demo.client
                      "/rest/api/2/priority" Demo.world)) in
  JiraServerClient.get_cached (H := Demo.host) Demo.client "/rest/api/2/priority" w1
  = (Returned Demo.token_body, w1)
  /\ length (requests (trace w1)) = 1.
Proof.
  cbv zeta.
  destruct (get_cached_second_call_hits (H := Demo.host) Demo.client
              "/rest/api/2/priority" "ck" "pk" "at" "ats" Demo.token_body ∅ Demo.world
              eq_refl eq_refl eq_refl eq_refl eq_refl eq_refl eq_refl) as [E1 E2].
  split; [exact E1 | ]. rewrite E2. reflexivity.
Defined.

Lemma get_cached_false_response_refetched_witness :
  let w1 := snd (JiraServerClient.get_cached (H := DemoEmpty.host) Demo.client
                   "/rest/api/2/priority" DemoEmpty.world) in
  length (requests (trace w1)) = 1
  /\ length (requests (trace (snd (JiraServerClient.get_cached (H := DemoEmpty.host)
                                      Demo.client "/rest/api/2/priority" w1)))) = 2.
Proof.
  cbv zeta. split; [reflexivity | ].
  rewrite (proj2 (get_cached_false_response_refetched (H := DemoEmpty.host) Demo.client
                    "/rest/api/2/priority" "ck" "pk" "at" "ats" "" DemoEmpty.world
                    eq_refl eq_refl eq_refl eq_refl eq_refl eq_refl eq_refl)).
  reflexivity.
Defined.

Lemma get_cached_touches_one_key_witness :
  let w := {| cache := {[ "kept" := ("value", 60) ]};
              identity_data := Demo.credentials; trace := [] |} in
  cache (snd (JiraServerClient.get_cached (H := Demo.host) Demo.client
                "/rest/api/2/priority" w)) !! "kept"
  = Some ("value", 60).
Proof.
  cbv zeta.
  rewrite (proj1 (get_cached_touches_one_key (H := Demo.host) Demo.client
                    "/rest/api/2/priority" "kept" _ ltac:(discriminate))).
  reflexivity.
Defined.

Lemma get_create_meta_request_witness :
  map line (requests (trace (snd (JiraServerClient.get_create_meta (H := Demo.host)
                                    Demo.client (Some "10000") Demo.world))))
  = [("GET", "/rest/api/2/issue/createmeta",
      Some [("expand", "projects.issuetypes.fields"); ("projectIds", "10000")])]
  /\ map line (requests (trace (snd (JiraServerClient.get_create_meta (H := Demo.host)
                                       Demo.client None Demo.world))))
     = [("GET", "/rest/api/2/issue/createmeta",
         Some [("expand", "projects.issuetypes.fields")])].
Proof.
  split.
  - rewrite (proj2 (get_create_meta_request (H := Demo.host) Demo.client (Some "10000")
                      "ck" "pk" "at" "ats" Demo.world eq_refl eq_refl eq_refl eq_refl)).
    reflexivity.
  - rewrite (proj2 (get_create_meta_request (H := Demo.host) Demo.client None
                      "ck" "pk" "at" "ats" Demo.world eq_refl eq_refl eq_refl eq_refl)).
    reflexivity.
Defined.

Lemma get_versions_request_witness :
  map line (requests (trace (snd (JiraServerClient.get_versions (H := Demo.host)
                                    Demo.client "42" Demo.world))))
  = [("GET", "/rest/api/2/project/42/versions", None)].
Proof.
  rewrite (proj1 (proj2 (get_versions_request (H := Demo.host) Demo.client "42" Demo.world)
                    "ck" "pk" "at" "ats" eq_refl eq_refl eq_refl eq_refl eq_refl)).
  reflexivity.
Defined.


Lemma search_issues_sends_jql_witness :
  map line (requests (trace (snd (JiraServerClient.search_issues (H := Demo.host)
                                    Demo.client "crash on login" Demo.world))))
  = [("GET", "/rest/api/2/search/",
      Some [("jql", "text ~ " +:+ PyStr.dquote +:+ "crash on login" +:+ PyStr.dquote)])].
Proof.
  rewrite (proj2 (search_issues_sends_jql (H := Demo.host) Demo.client "crash on login"
                    "ck" "pk" "at" "ats" Demo.world eq_refl eq_refl eq_refl eq_refl)).
  reflexivity.
Defined.
